(** * HealthEquity audio generator: a shallow embedding of
      [notebooks/audio_generator.py] and the properties of its
      orchestration shell.

    Python [str] values are sequences of Unicode code points, [bytes] are
    sequences of octets.  The file system, the logger, the standard output
    and the text-to-speech engine are threaded through the functions as an
    explicit [World]; what the operating system and the engine decide on
    their own is supplied by a [Platform].

    What the model takes for granted:
    - paths are POSIX paths, and the file system is addressed by the path
      string as the process spells it;
    - whatever is raised is a subclass of [Exception]; [KeyboardInterrupt]
      and [SystemExit], which [except Exception] lets through, are not
      modelled;
    - [logger] does not raise;
    - loading the model has no effect on the modelled file system, and a
      synthesis request touches it at the requested path only.  *)

From Stdlib Require Import Strings.String Strings.Byte NArith List Lia.
From stdpp Require Import gmap list.

Local Open Scope N_scope.

(** ** Python strings *)

(** A [str] is a list of code points. *)
Abbreviation pystr := (list N).

Definition in_range (lo hi c : N) : bool := (lo <=? c) && (c <=? hi).

(** Strict UTF-8 decoding, as [bytes.decode('utf-8')] and a text-mode
    [open(..., encoding='utf-8')] do it: overlong forms, surrogates, code
    points above U+10FFFF and truncated sequences are rejected. *)
Fixpoint utf8_decode (bs : list byte) : option pystr :=
  match bs with
  | [] => Some []
  | b0 :: r0 =>
    let c0 := Byte.to_N b0 in
    if c0 <? 0x80 then cons c0 <$> utf8_decode r0
    else
      match r0 with
      | [] => None
      | b1 :: r1 =>
        let c1 := Byte.to_N b1 in
        if in_range 0xC2 0xDF c0 then
          if in_range 0x80 0xBF c1
          then cons ((c0 - 0xC0) * 0x40 + (c1 - 0x80)) <$> utf8_decode r1
          else None
        else
          match r1 with
          | [] => None
          | b2 :: r2 =>
            let c2 := Byte.to_N b2 in
            if in_range 0xE0 0xEF c0 then
              if in_range (if c0 =? 0xE0 then 0xA0 else 0x80)
                          (if c0 =? 0xED then 0x9F else 0xBF) c1
                 && in_range 0x80 0xBF c2
              then cons ((c0 - 0xE0) * 0x1000 + (c1 - 0x80) * 0x40 + (c2 - 0x80))
                     <$> utf8_decode r2
              else None
            else
              match r2 with
              | [] => None
              | b3 :: r3 =>
                let c3 := Byte.to_N b3 in
                if in_range 0xF0 0xF4 c0
                   && in_range (if c0 =? 0xF0 then 0x90 else 0x80)
                               (if c0 =? 0xF4 then 0x8F else 0xBF) c1
                   && in_range 0x80 0xBF c2 && in_range 0x80 0xBF c3
                then cons ((c0 - 0xF0) * 0x40000 + (c1 - 0x80) * 0x1000
                           + (c2 - 0x80) * 0x40 + (c3 - 0x80))
                       <$> utf8_decode r3
                else None
              end
          end
      end
  end.

(** String literals of the script.  The source file is UTF-8, so a literal
    denotes the code points its bytes decode to. *)
Definition py (s : string) : pystr :=
  default [] (utf8_decode (list_byte_of_string s)).
Arguments py : simpl never.

(** [str.isspace] for one code point: the characters [str.strip()] removes. *)
Definition isspace (c : N) : bool :=
  in_range 0x09 0x0D c || in_range 0x1C 0x1F c || (c =? 0x20) || (c =? 0x85)
  || (c =? 0xA0) || (c =? 0x1680) || in_range 0x2000 0x200A c
  || (c =? 0x2028) || (c =? 0x2029) || (c =? 0x202F) || (c =? 0x205F)
  || (c =? 0x3000).

Fixpoint lstrip (s : pystr) : pystr :=
  match s with
  | [] => []
  | c :: r => if isspace c then lstrip r else s
  end.

Definition rstrip (s : pystr) : pystr := rev (lstrip (rev s)).

(** [s.strip()] *)
Definition strip (s : pystr) : pystr := rstrip (lstrip s).

(** [s.split(sep)] for a one-character separator: never returns the empty
    list, [''.split(sep) == ['']]. *)
Fixpoint split (sep : N) (s : pystr) : list pystr :=
  match s with
  | [] => [[]]
  | c :: r =>
    if c =? sep then [] :: split sep r
    else match split sep r with
         | [] => [[c]]
         | x :: xs => (c :: x) :: xs
         end
  end.

(** [sep.join(parts)] *)
Fixpoint join (sep : pystr) (parts : list pystr) : pystr :=
  match parts with
  | [] => []
  | [x] => x
  | x :: rest => x ++ sep ++ join sep rest
  end.

(** Universal newlines of a text-mode [read()]: CR LF and a lone CR both
    arrive as LF. *)
Fixpoint translate_newlines (s : pystr) : pystr :=
  match s with
  | [] => []
  | c :: r =>
    if c =? 13 then
      10 :: match r with
            | d :: r' => if d =? 10 then translate_newlines r' else translate_newlines r
            | [] => []
            end
    else c :: translate_newlines r
  end.

(** Decimal rendering of a non-negative integer, [str(n)]. *)
Fixpoint digits_aux (fuel : nat) (n : N) (acc : pystr) : pystr :=
  let acc' := (48 + n mod 10) :: acc in
  match fuel with
  | O => acc'
  | S f => if n / 10 =? 0 then acc' else digits_aux f (n / 10) acc'
  end.

Definition str_int (n : N) : pystr := digits_aux (N.to_nat (N.log2 n)) n [].

(** [s.zfill(w)] for a string of digits. *)
Definition zfill (w : nat) (s : pystr) : pystr :=
  replicate (w - length s)%nat 48 ++ s.

(** The format specification [{i:03d}]. *)
Definition format_03d (i : nat) : pystr := zfill 3 (str_int (N.of_nat i)).

(** Reading a rendered integer back. *)
Definition int_of (s : pystr) : N := fold_left (fun a c => a * 10 + (c - 48)) s 0.

Definition isdigit (c : N) : bool := in_range 48 57 c.

(** [s.upper()] on the ASCII letters, which is all the dictionary keys of
    the script contain. *)
Definition upper (s : pystr) : pystr :=
  map (fun c => if in_range 97 122 c then c - 32 else c) s.

(** ** pathlib on POSIX *)

Record Path := { root : pystr; parts : list pystr }.

Definition starts_with_sep (s : pystr) : bool :=
  match s with
  | c :: _ => c =? 47
  | [] => false
  end.

(** [Path(s)]: the root is empty for a relative path, [//] for exactly two
    leading slashes and [/] otherwise ([posixpath.splitroot]); empty
    components and [.] components are dropped. *)
Definition Path_of_str (s : pystr) : Path :=
  {| root := if negb (starts_with_sep s) then []
             else if negb (starts_with_sep (drop 1 s)) || starts_with_sep (drop 2 s)
                  then [47]
                  else [47; 47];
     parts := filter (fun x => x ≠ [] ∧ x ≠ [46]) (split 47 s) |}.

(** [str(p)]: the root followed by the components joined with [/], or
    [.] when that is empty. *)
Definition Path_str (p : Path) : pystr :=
  match root p ++ join [47] (parts p) with
  | [] => [46]
  | s => s
  end.

(** [p / s] *)
Definition Path_div (p : Path) (s : pystr) : Path :=
  let q := Path_of_str s in
  match root q with
  | [] => {| root := root p; parts := parts p ++ parts q |}
  | _ => q
  end.

(** [p.name] *)
Definition Path_name (p : Path) : pystr := List.last (parts p) [].

(** ** The world outside the script *)

Inductive Node := Dir | File (data : list byte).

Inductive Level := INFO | ERROR.

Record LogRecord := { level : Level; message : pystr }.

(** One invocation of [tts.tts_to_file(text=, speaker=, file_path=)]. *)
Record TtsCall := { call_text : pystr; call_speaker : pystr; call_file_path : pystr }.

(** [fs] maps a path, spelled as the process hands it to the operating
    system, to what is there; [log] holds the records emitted through
    [logger], oldest first; [calls] is the history of synthesis requests;
    [stdout] the arguments of [print], oldest first. *)
Record World := {
  fs : gmap pystr Node;
  log : list LogRecord;
  calls : list TtsCall;
  stdout : list pystr
}.

(** The subclasses of [Exception] the script can meet.  [OSError] stands
    for the remaining operating-system errors ([PermissionError], ...),
    [Exception] for anything else a library raises. *)
Inductive Exn :=
| FileNotFoundError (filename : pystr)
| FileExistsError (filename : pystr)
| IsADirectoryError (filename : pystr)
| OSError (detail : pystr)
| UnicodeDecodeError
| Exception (detail : pystr).

(** What the engine did with one request: it wrote the waveform to the
    requested path, or it raised, possibly leaving a partial file there. *)
Inductive TtsOutcome :=
| Written (audio : list byte)
| Failed (e : Exn) (partial : option (list byte)).

(** Everything decided outside the script.  The functions see the world
    as it is when they are called, the history of earlier calls included,
    so their answers may change during a run. *)
Class Platform := {
  Handle : Type;
  TTS : pystr -> World -> Exn + Handle;
  engine : Handle -> pystr -> pystr -> pystr -> World -> TtsOutcome;
  mkdir_refused : pystr -> World -> option Exn;
  open_refused : pystr -> World -> option Exn;
  print_refused : pystr -> World -> option Exn;
  exn_str : Exn -> pystr
}.

Definition set_fs (f : gmap pystr Node) (w : World) : World :=
  {| fs := f; log := log w; calls := calls w; stdout := stdout w |}.

Definition logger_emit (l : Level) (msg : pystr) (w : World) : World :=
  {| fs := fs w; log := log w ++ [{| level := l; message := msg |}];
     calls := calls w; stdout := stdout w |}.

Definition logger_info := logger_emit INFO.
Definition logger_error := logger_emit ERROR.

Definition record_call (c : TtsCall) (w : World) : World :=
  {| fs := fs w; log := log w; calls := calls w ++ [c]; stdout := stdout w |}.

(** [len(l)] as a Python integer. *)
Definition len {A} (l : list A) : N := N.of_nat (length l).

Section Script.
Context `{Platform}.

(** [os.mkdir(p)] *)
Definition os_mkdir (p : pystr) (w : World) : option Exn * World :=
  match fs w !! p with
  | Some _ => (Some (FileExistsError p), w)
  | None =>
    match mkdir_refused p w with
    | Some e => (Some e, w)
    | None => (None, set_fs (<[p := Dir]> (fs w)) w)
    end
  end.

Definition Path_is_dir (p : Path) (w : World) : bool :=
  match fs w !! Path_str p with
  | Some Dir => true
  | _ => false
  end.

Definition is_OSError (e : Exn) : bool :=
  match e with
  | FileNotFoundError _ | FileExistsError _ | IsADirectoryError _ | OSError _ => true
  | _ => false
  end.

(** [p.mkdir(exist_ok=True)]: [parents] is left at [False], so a missing
    parent is an error; any other [OSError] is swallowed exactly when the
    path is a directory afterwards. *)
Definition Path_mkdir_exist_ok (p : Path) (w : World) : option Exn * World :=
  match os_mkdir (Path_str p) w with
  | (None, w') => (None, w')
  | (Some (FileNotFoundError f), w') => (Some (FileNotFoundError f), w')
  | (Some e, w') =>
    if is_OSError e && Path_is_dir p w' then (None, w') else (Some e, w')
  end.

(** [self.tts.tts_to_file(text=, speaker=, file_path=)]: the request is
    entered in the history, the engine answers, and its answer touches the
    file system at [file_path] only. *)
Definition tts_to_file (h : Handle) (text speaker file_path : pystr) (w : World)
  : option Exn * World :=
  let w1 := record_call {| call_text := text; call_speaker := speaker;
                           call_file_path := file_path |} w in
  match engine h text speaker file_path w with
  | Written audio => (None, set_fs (<[file_path := File audio]> (fs w1)) w1)
  | Failed e None => (Some e, w1)
  | Failed e (Some d) => (Some e, set_fs (<[file_path := File d]> (fs w1)) w1)
  end.

(** [print(line)]: the line reaches the standard output, or the write
    raises (a stream that cannot encode the line, a closed pipe) and
    nothing of the line is recorded. *)
Definition print (line : pystr) (w : World) : option Exn * World :=
  match print_refused line w with
  | Some e => (Some e, w)
  | None => (None, {| fs := fs w; log := log w; calls := calls w;
                      stdout := stdout w ++ [line] |})
  end.

(** One statement after another inside a [try]: [k] runs unless [step]
    raised. *)
Definition and_then {A} (step : World -> option Exn * World)
    (k : World -> (Exn + A) * World) (w : World) : (Exn + A) * World :=
  match step w with
  | (Some e, w') => (inl e, w')
  | (None, w') => k w'
  end.

(** [open(file_path, 'r', encoding='utf-8')] followed by [f.read()]. *)
Definition open_read (file_path : pystr) (w : World) : Exn + pystr :=
  match open_refused file_path w with
  | Some e => inl e
  | None =>
    match fs w !! file_path with
    | None => inl (FileNotFoundError file_path)
    | Some Dir => inl (IsADirectoryError file_path)
    | Some (File data) =>
      match utf8_decode data with
      | None => inl UnicodeDecodeError
      | Some s => inr (translate_newlines s)
      end
    end
  end.

(** ** class HealthEquityAudioGenerator *)

Record HealthEquityAudioGenerator := {
  output_dir : Path;
  tts : Handle;
  spanish_questions : list pystr;
  tagalog_questions : list pystr
}.

Definition model_name : pystr := py "tts_models/multilingual/multi-dataset/xtts_v2".

Definition default_spanish_questions : list pystr := [
    py "¬øCu√°les son mis valores de presi√≥n arterial hoy?";
    py "¬øCu√°les fueron los valores de la √∫ltima semana?";
    py "¬øCu√°l es la tendencia de mis valores?";
    py "¬øCu√°les son los rangos normales para una persona como yo?";
    py "Por favor tome su medicamento seg√∫n lo recetado por su m√©dico.";
    py "Su cita est√° programada para ma√±ana a las 2 PM.";
    py "Por favor ayune durante 8 horas antes de su an√°lisis de sangre.";
    py "Su seguro cubre este procedimiento completamente.";
    py "Por favor traiga su tarjeta de seguro y identificaci√≥n con foto.";
    py "El m√©dico lo ver√° en la habitaci√≥n 205."
  ].

Definition default_tagalog_questions : list pystr := [
    py "Ano ang aking mga blood pressure values ngayon?";
    py "Ano ang mga values noong nakaraang linggo?";
    py "Ano ang trend ng aking mga values?";
    py "Ano ang normal ranges para sa isang taong katulad ko?";
    py "Mangyaring inumin ang inyong gamot ayon sa inireseta ng inyong doktor.";
    py "Ang inyong appointment ay nakatakda bukas ng 2 PM.";
    py "Mangyaring mag-ayuno ng 8 oras bago ang inyong blood test.";
    py "Ang inyong insurance ay sumasaklaw sa procedure na ito nang lubusan.";
    py "Mangyaring dalhin ang inyong insurance card at photo ID.";
    py "Ang doktor ay makikita kayo sa room 205."
  ].

(** [HealthEquityAudioGenerator.__init__(output_dir)]: either the
    exception that leaves the constructor, or the new object. *)
Definition __init__ (output_dir_arg : pystr) (w : World)
  : (Exn + HealthEquityAudioGenerator) * World :=
  let dir := Path_of_str output_dir_arg in
  match Path_mkdir_exist_ok dir w with
  | (Some e, w1) => (inl e, w1)
  | (None, w1) =>
    let w2 := logger_info (py "Loading TTS model...") w1 in
    match TTS model_name w2 with
    | inl e => (inl e, logger_error (py "Failed to load TTS model: " ++ exn_str e) w2)
    | inr h =>
      let w3 := logger_info (py "TTS model loaded successfully") w2 in
      (inr {| output_dir := dir; tts := h;
              spanish_questions := default_spanish_questions;
              tagalog_questions := default_tagalog_questions |},
       logger_info (py "HealthEquity Audio Generator initialized. Output directory: "
                    ++ Path_str dir) w3)
    end
  end.

(** The methods run on the object and the world together, so that a
    method that assigned to an attribute would show. *)
Record Machine := { self : HealthEquityAudioGenerator; world : World }.

Definition on_world (f : World -> World) (m : Machine) : Machine :=
  {| self := self m; world := f (world m) |}.

Inductive Lang := Spanish | Tagalog.

(** The constants in which [generate_spanish_audio] and
    [generate_tagalog_audio] differ. *)
Definition lang_key (l : Lang) : pystr :=
  match l with Spanish => py "spanish" | Tagalog => py "tagalog" end.

Definition lang_title (l : Lang) : pystr :=
  match l with Spanish => py "Spanish" | Tagalog => py "Tagalog" end.

(** Tagalog is spoken with the English voice. *)
Definition speaker (l : Lang) : pystr :=
  match l with Spanish => py "es" | Tagalog => py "en" end.

Definition questions_of (l : Lang) (g : HealthEquityAudioGenerator) : list pystr :=
  match l with Spanish => spanish_questions g | Tagalog => tagalog_questions g end.

(** [f"spanish_q{i:03d}.wav"], [f"tagalog_q{i:03d}.wav"] *)
Definition filename_of (l : Lang) (i : nat) : pystr :=
  lang_key l ++ py "_q" ++ format_03d i ++ py ".wav".

(** [str(self.output_dir / filename)] *)
Definition out_path (dir : Path) (l : Lang) (i : nat) : pystr :=
  Path_str (Path_div dir (filename_of l i)).

Definition filepath_of (g : HealthEquityAudioGenerator) (l : Lang) (i : nat) : pystr :=
  out_path (output_dir g) l i.

(** [f"... Failed to generate audio for Spanish question {i}: {str(e)}"] *)
Definition failed_msg (l : Lang) (i : nat) (e : Exn) : pystr :=
  py "‚ùå Failed to generate audio for " ++ lang_title l ++ py " question "
  ++ str_int (N.of_nat i) ++ py ": " ++ exn_str e.

(** The body of the [for] loop, [try] and [except Exception] included:
    the outcome of the synthesis request (kept for the proofs), the list
    [generated_files] and the machine afterwards. *)
Definition loop_body (l : Lang) (i : nat) (question : pystr)
    (generated_files : list pystr) (m : Machine)
  : option Exn * list pystr * Machine :=
  let filename := filename_of l i in
  let filepath := Path_div (output_dir (self m)) filename in
  match tts_to_file (tts (self m)) question (speaker l) (Path_str filepath) (world m) with
  | (None, w1) =>
    (None, generated_files ++ [Path_str filepath],
     {| self := self m; world := logger_info (py "‚úÖ Generated " ++ filename) w1 |})
  | (Some e, w1) =>
    (Some e, generated_files,
     {| self := self m; world := logger_error (failed_msg l i e) w1 |})
  end.

(** [for i, question in enumerate(questions, 1): ...] from index [i] on. *)
Fixpoint generate_loop (l : Lang) (i : nat) (questions : list pystr)
    (generated_files : list pystr) (m : Machine) : list pystr * Machine :=
  match questions with
  | [] => (generated_files, m)
  | question :: rest =>
    let '(_, generated_files', m') := loop_body l i question generated_files m in
    generate_loop l (S i) rest generated_files' m'
  end.

(** [custom_questions if custom_questions else self.<lang>_questions]:
    [None] and the empty list are both false. *)
Definition effective_questions (l : Lang) (custom_questions : option (list pystr))
    (g : HealthEquityAudioGenerator) : list pystr :=
  match custom_questions with
  | Some (q :: qs) => q :: qs
  | _ => questions_of l g
  end.

(** [f"Generating {len(questions)} Spanish audio files..."] *)
Definition generating_msg (l : Lang) (questions : list pystr) : pystr :=
  py "Generating " ++ str_int (len questions) ++ py " " ++ lang_title l
  ++ py " audio files...".

Definition generate_audio (l : Lang) (custom_questions : option (list pystr))
    (m : Machine) : list pystr * Machine :=
  let questions := effective_questions l custom_questions (self m) in
  let m1 := on_world (logger_info (generating_msg l questions)) m in
  generate_loop l 1 questions [] m1.

Definition generate_spanish_audio := generate_audio Spanish.
Definition generate_tagalog_audio := generate_audio Tagalog.

(** A [dict] from language key to list of paths, in insertion order. *)
Definition Results := list (pystr * list pystr).

Definition generate_all_audio (m : Machine) : Results * Machine :=
  let m0 := on_world (logger_info (py "Starting audio generation for all languages...")) m in
  let '(rs, m1) := generate_spanish_audio None m0 in
  let '(rt, m2) := generate_tagalog_audio None m1 in
  let total_files := len rs + len rt in
  ([(py "spanish", rs); (py "tagalog", rt)],
   on_world (logger_info (py "‚úÖ Audio generation completed! Generated "
                          ++ str_int total_files ++ py " files total.")) m2).

Definition truthy {A} (o : option (list A)) : bool :=
  match o with
  | Some (_ :: _) => true
  | _ => false
  end.

Definition generate_custom_audio (spanish_texts tagalog_texts : option (list pystr))
    (m : Machine) : Results * Machine :=
  let '(rs, m1) :=
    if truthy spanish_texts then
      generate_spanish_audio spanish_texts
        (on_world (logger_info (py "Generating custom Spanish audio for "
                                ++ str_int (len (default [] spanish_texts)) ++ py " texts...")) m)
    else ([], m) in
  let '(rt, m2) :=
    if truthy tagalog_texts then
      generate_tagalog_audio tagalog_texts
        (on_world (logger_info (py "Generating custom Tagalog audio for "
                                ++ str_int (len (default [] tagalog_texts)) ++ py " texts...")) m1)
    else ([], m1) in
  ([(py "spanish", rs); (py "tagalog", rt)], m2).

(** ** load_texts_from_file *)

(** The [try] block: what it returns or raises. *)
Definition load_texts_try (file_path : pystr) (w : World) : (Exn + list pystr) * World :=
  match open_read file_path w with
  | inl e => (inl e, w)
  | inr content =>
    let texts := strip <$> filter (fun line => strip line ≠ []) (split 10 content) in
    (inr texts,
     logger_info (py "Loaded " ++ str_int (len texts) ++ py " texts from " ++ file_path) w)
  end.

Definition load_texts_from_file (file_path : pystr) (w : World) : list pystr * World :=
  match load_texts_try file_path w with
  | (inr texts, w') => (texts, w')
  | (inl e, w') => ([], logger_error (py "Error loading texts from file: " ++ exn_str e) w')
  end.

(** ** main *)

(** The namespace [parser.parse_args()] returns; [choices] restricts
    [languages] to the two keys. *)
Record Args := {
  output : pystr;
  spanish_file : option pystr;
  tagalog_file : option pystr;
  spanish_texts : option (list pystr);
  tagalog_texts : option (list pystr);
  languages : list Lang
}.

Global Instance Lang_eq_dec : EqDecision Lang.
Proof. solve_decision. Defined.

(** [load_texts_from_file(file) if file else (texts if texts else None)] *)
Definition choose_texts (file : option pystr) (texts : option (list pystr)) (w : World)
  : option (list pystr) * World :=
  match file with
  | Some (c :: f) => let '(ts, w') := load_texts_from_file (c :: f) w in (Some ts, w')
  | _ => (match texts with Some (t :: ts) => Some (t :: ts) | _ => None end, w)
  end.

(** The inner [for file in files] of the report, counting in
    [total_files]; it stops at the first [print] that raises. *)
Fixpoint print_files (files : list pystr) (total_files : N) (w : World)
  : (Exn + N) * World :=
  match files with
  | [] => (inr total_files, w)
  | file :: rest =>
    let filename := Path_name (Path_of_str file) in
    and_then (print (py "  ‚úÖ " ++ filename)) (print_files rest (total_files + 1)) w
  end.

(** [for language, files in results.items(): ...] *)
Fixpoint print_languages (results : Results) (total_files : N) (w : World)
  : (Exn + N) * World :=
  match results with
  | [] => (inr total_files, w)
  | (language, files) :: rest =>
    and_then (print ([10] ++ upper language ++ py " Audio Files ("
                     ++ str_int (len files) ++ py " files):"))
      (fun w1 =>
         match print_files files total_files w1 with
         | (inl e, w2) => (inl e, w2)
         | (inr total_files', w2) => print_languages rest total_files' w2
         end) w
  end.

(** The report printed after generation: [total_files] when every [print]
    went through, the exception of the first one that raised otherwise. *)
Definition print_results (results : Results) (g : HealthEquityAudioGenerator)
    (w : World) : (Exn + N) * World :=
  and_then (print ([10] ++ replicate 60 61))
    (and_then (print (py "HEALTHEQUITY AUDIO GENERATION RESULTS"))
       (and_then (print (replicate 60 61))
          (fun w3 =>
             match print_languages results 0 w3 with
             | (inl e, w4) => (inl e, w4)
             | (inr total_files, w4) =>
               and_then (print ([10] ++ py "üìÅ All files saved in: "
                                ++ Path_str (output_dir g)))
                 (and_then (print (py "üìä Total audio files generated: "
                                   ++ str_int total_files))
                    (fun w6 => (inr total_files, w6))) w4
             end))) w.

(** The [if]/[else] under "Generate audio files": custom texts when
    either language has some, the default questions otherwise, and in
    both cases only for the languages of the filter. *)
Definition generate_selected (languages : list Lang)
    (spanish_texts tagalog_texts : option (list pystr)) (m : Machine)
  : Results * Machine :=
  if truthy spanish_texts || truthy tagalog_texts then
    generate_custom_audio
      (if bool_decide (Spanish ∈ languages) then spanish_texts else None)
      (if bool_decide (Tagalog ∈ languages) then tagalog_texts else None) m
  else
    let '(r1, m1) :=
      if bool_decide (Spanish ∈ languages)
      then let '(fsp, m1) := generate_spanish_audio None m in ([(py "spanish", fsp)], m1)
      else ([], m) in
    if bool_decide (Tagalog ∈ languages)
    then let '(ft, m2) := generate_tagalog_audio None m1 in (r1 ++ [(py "tagalog", ft)], m2)
    else (r1, m1).

(** [main()] after argument parsing: the exit status of the process and
    the world it leaves.  The [try] covers the whole body; the statements of
    it that can raise are the constructor and the [print]s of the report,
    and an exception of either is logged and ends the run with status 1. *)
Definition main (args : Args) (w : World) : N * World :=
  match __init__ (output args) w with
  | (inl e, w1) => (1, logger_error (py "Audio generation failed: " ++ exn_str e) w1)
  | (inr generator, w1) =>
    let '(spanish_texts, w2) := choose_texts (spanish_file args) (spanish_texts args) w1 in
    let '(tagalog_texts, w3) := choose_texts (tagalog_file args) (tagalog_texts args) w2 in
    let '(results, m') :=
      generate_selected (languages args) spanish_texts tagalog_texts
        {| self := generator; world := w3 |} in
    match print_results results (self m') (world m') with
    | (inl e, w') => (1, logger_error (py "Audio generation failed: " ++ exn_str e) w')
    | (inr _, w') => (0, w')
    end
  end.

(** ** Auxiliary definitions for the statements *)

(** The outcome of each synthesis request of the loop, in order: [None]
    where [tts_to_file] returned, [Some e] where it raised [e]. *)
Fixpoint loop_outcomes (l : Lang) (i : nat) (questions : list pystr)
    (generated_files : list pystr) (m : Machine) : list (option Exn) :=
  match questions with
  | [] => []
  | question :: rest =>
    let '(o, generated_files', m') := loop_body l i question generated_files m in
    o :: loop_outcomes l (S i) rest generated_files' m'
  end.

Definition generate_outcomes (l : Lang) (custom_questions : option (list pystr))
    (m : Machine) : list (option Exn) :=
  let questions := effective_questions l custom_questions (self m) in
  loop_outcomes l 1 questions [] (on_world (logger_info (generating_msg l questions)) m).

(** The record the loop logs for item [i] after outcome [o]. *)
Definition item_record (l : Lang) (i : nat) (o : option Exn) : LogRecord :=
  match o with
  | None => {| level := INFO; message := py "‚úÖ Generated " ++ filename_of l i |}
  | Some e => {| level := ERROR; message := failed_msg l i e |}
  end.

(** The generate operations, and a sequence of them run one after the
    other. *)
Inductive Op :=
| GenSpanish (custom_questions : option (list pystr))
| GenTagalog (custom_questions : option (list pystr))
| GenAll
| GenCustom (spanish_texts tagalog_texts : option (list pystr)).

Definition run_op (o : Op) (m : Machine) : Machine :=
  match o with
  | GenSpanish c => snd (generate_spanish_audio c m)
  | GenTagalog c => snd (generate_tagalog_audio c m)
  | GenAll => snd (generate_all_audio m)
  | GenCustom sp tg => snd (generate_custom_audio sp tg m)
  end.

Definition run_ops (ops : list Op) (m : Machine) : Machine :=
  fold_left (fun m o => run_op o m) ops m.

(** The request the loop makes for item [i]. *)
Definition request (g : HealthEquityAudioGenerator) (l : Lang) (i : nat)
    (question : pystr) : TtsCall :=
  {| call_text := question; call_speaker := speaker l; call_file_path := filepath_of g l i |}.

End Script.

(** What precedes the name in the string of a path below [dir]. *)
Definition dir_prefix (dir : Path) : pystr :=
  root dir ++ match parts dir with
              | [] => []
              | ps => join [47] ps ++ [47]
              end.

(** Positions, counted from [i], of the requests that succeeded. *)
Fixpoint successes (i : nat) (outs : list (option Exn)) : list nat :=
  match outs with
  | [] => []
  | None :: r => i :: successes (S i) r
  | Some _ :: r => successes (S i) r
  end.

(** The name the last component of a path string has, [Path(p).name]. *)
Definition name_of (p : pystr) : pystr := Path_name (Path_of_str p).

(** [name] is the language key, [_q], the digits [d] and [.wav], where
    [d] reads as [i] and satisfies [width]. *)
Definition indexed_name (width : nat -> pystr -> Prop) (l : Lang) (i : nat)
    (name : pystr) : Prop :=
  exists d, name = lang_key l ++ py "_q" ++ d ++ py ".wav"
            /\ Forall (fun c => isdigit c = true) d
            /\ int_of d = N.of_nat i /\ width i d.

(** An index of exactly three digits. *)
Definition three_digits (i : nat) (d : pystr) : Prop := length d = 3%nat.

(** An index padded with zeros to three digits, longer only when the
    number needs more. *)
Definition padded_to_three (i : nat) (d : pystr) : Prop :=
  (3 <= length d)%nat /\ ((i <= 999)%nat -> length d = 3%nat)
  /\ ((3 < length d)%nat -> head d <> Some 48).

(** What a generate call on a non-empty list does with each position:
    item [i], with its own text, is requested at the path of position [i];
    the result is, in order, the paths of the positions whose request
    returned; the file name of every position is the name of that position
    with the given [width]; different positions have different names. *)
Definition names_positions `{Platform} (width : nat -> pystr -> Prop) (l : Lang)
    (custom : list pystr) (m : Machine) : Prop :=
  let g := self m in
  let n := length custom in
  let '(r, m') := generate_audio l (Some custom) m in
  (length r <= n)%nat
  /\ calls (world m') = calls (world m) ++ zip_with (request g l) (seq 1 n) custom
  /\ r = filepath_of g l <$> successes 1 (generate_outcomes l (Some custom) m)
  /\ Forall (fun i => indexed_name width l i (name_of (filepath_of g l i))) (seq 1 n)
  /\ NoDup ((fun i => name_of (filepath_of g l i)) <$> seq 1 n)
  /\ NoDup (name_of <$> r).

(** ** A test double for the platform *)

(** The model loads when [model_ok]; directories can be made unless
    [read_only]; synthesis raises for the texts in [bad] and writes a
    four-byte file otherwise; every file may be opened. *)
Definition fake_str (e : Exn) : pystr :=
  match e with
  | FileNotFoundError f => py "No such file or directory: " ++ f
  | FileExistsError f => py "File exists: " ++ f
  | IsADirectoryError f => py "Is a directory: " ++ f
  | OSError d => d
  | UnicodeDecodeError => py "invalid start byte"
  | Exception d => d
  end.

Definition FakePlatform (model_ok read_only : bool) (bad : list pystr) : Platform :=
  {| Handle := unit;
     TTS := fun _ _ => if model_ok then inr tt else inl (Exception (py "model unavailable"));
     engine := fun _ text _ _ _ =>
                 if bool_decide (text ∈ bad)
                 then Failed (Exception (py "synthesis failed")) None
                 else Written [x52; x49; x46; x46];
     mkdir_refused := fun _ _ => if read_only then Some (OSError (py "Read-only file system"))
                                 else None;
     open_refused := fun _ _ => None;
     print_refused := fun _ _ => None;
     exn_str := fake_str |}.

Definition empty_world : World := {| fs := ∅; log := []; calls := []; stdout := [] |}.

(** An object as [__init__] builds it for the directory [out], on the
    test double. *)
Definition fake_generator (bad : list pystr)
  : @HealthEquityAudioGenerator (FakePlatform true false bad) :=
  @Build_HealthEquityAudioGenerator (FakePlatform true false bad) (Path_of_str (py "out")) tt
    default_spanish_questions default_tagalog_questions.

Definition fake_machine (bad : list pystr) : @Machine (FakePlatform true false bad) :=
  @Build_Machine (FakePlatform true false bad) (fake_generator bad) empty_world.

(** A test double whose standard output encodes ASCII only: the model
    loads, every synthesis succeeds, and a [print] of a line with any other
    character raises. *)
Definition AsciiConsole : Platform :=
  {| Handle := unit;
     TTS := fun _ _ => inr tt;
     engine := fun _ _ _ _ _ => Written [x52; x49; x46; x46];
     mkdir_refused := fun _ _ => None;
     open_refused := fun _ _ => None;
     print_refused := fun line _ =>
                        if forallb (fun c => c <? 128) line then None
                        else Some (Exception (py "ascii codec cannot encode characters"));
     exn_str := fake_str |}.

Definition ascii_generator : @HealthEquityAudioGenerator AsciiConsole :=
  @Build_HealthEquityAudioGenerator AsciiConsole (Path_of_str (py "out")) tt
    default_spanish_questions default_tagalog_questions.

(** Results with one Spanish file and no Tagalog file. *)
Definition one_file_results : Results :=
  [(py "spanish", [py "out/spanish_q001.wav"]); (py "tagalog", [])].

(** The request [c] is one a generate operation of a language in
    [langs] makes below [dir]: that language's voice, and a file named
    after that language. *)
Definition for_selected (langs : list Lang) (dir : Path) (c : TtsCall) : Prop :=
  exists l i, l ∈ langs /\ call_speaker c = speaker l
              /\ call_file_path c = out_path dir l i.

(** From [m] to [m'] the object is unchanged, the new requests are all
    for languages in [langs], and only their files were touched. *)
Definition within `{Platform} (langs : list Lang) (m m' : Machine) : Prop :=
  self m' = self m
  /\ (exists new, calls (world m') = calls (world m) ++ new
                   /\ Forall (for_selected langs (output_dir (self m))) new)
  /\ (forall p, (forall l i, l ∈ langs -> p <> out_path (output_dir (self m)) l i) ->
                 fs (world m') !! p = fs (world m) !! p).

(** The namespace for custom texts in both languages with the filter
    set to Tagalog. *)
Definition tagalog_only_args : Args :=
  {| output := py "out"; spanish_file := None; tagalog_file := None;
     spanish_texts := Some [py "hola"]; tagalog_texts := Some [py "kumusta"];
     languages := [Tagalog] |}.

(** The namespace when the script is started without arguments. *)
Definition default_args : Args :=
  {| output := py "health_audio_output"; spanish_file := None; tagalog_file := None;
     spanish_texts := None; tagalog_texts := None;
     languages := [Spanish; Tagalog] |}.

(** A world whose only file is [file_path], holding [data]. *)
Definition world_with_file (file_path : pystr) (data : list byte) : World :=
  {| fs := {[ file_path := File data ]}; log := []; calls := []; stdout := [] |}.

(** Every character of the line is white space; the empty line
    included. *)
Definition blank (line : pystr) : Prop := Forall (fun c => isspace c = true) line.

(** ** Auxiliary definitions for further properties *)

(** The requests a generate operation makes for the texts [qs], in
    order. *)
Definition requests `{Platform} (g : HealthEquityAudioGenerator) (l : Lang)
    (qs : list pystr) : list TtsCall :=
  zip_with (request g l) (seq 1 (length qs)) qs.

Global Instance Level_eq_dec : EqDecision Level.
Proof. solve_decision. Defined.

(** The number of requests that raised. *)
Definition failures (outs : list (option Exn)) : nat :=
  length (filter (fun o : option Exn => is_Some o) outs).

(** A text as [load_texts_from_file] delivers it: not empty, no white
    space at either end, and on one line. *)
Definition clean_text (t : pystr) : Prop :=
  t <> []
  /\ (forall c, head t = Some c -> isspace c = false)
  /\ (forall c, last t = Some c -> isspace c = false)
  /\ Forall (fun c => c <> 10 /\ c <> 13) t.

(** [lines] printed after what [w] has on the standard output. *)
Definition add_stdout (lines : list pystr) (w : World) : World :=
  {| fs := fs w; log := log w; calls := calls w; stdout := stdout w ++ lines |}.

(** The part of the report for one language: its heading, then the name
    of each file. *)
Definition language_lines (entry : pystr * list pystr) : list pystr :=
  ([10] ++ upper (fst entry) ++ py " Audio Files (" ++ str_int (len (snd entry))
   ++ py " files):")
  :: ((fun file => py "  ‚úÖ " ++ name_of file) <$> snd entry).

(** The number of files in all the lists of [results]. *)
Definition total_of (results : Results) : N := len (concat (snd <$> results)).

(** The report [main] prints for [results]. *)
Definition report_lines `{Platform} (results : Results) (g : HealthEquityAudioGenerator)
  : list pystr :=
  [[10] ++ replicate 60 61; py "HEALTHEQUITY AUDIO GENERATION RESULTS"; replicate 60 61]
  ++ concat (language_lines <$> results)
  ++ [[10] ++ py "üìÅ All files saved in: " ++ Path_str (output_dir g);
      py "üìä Total audio files generated: " ++ str_int (total_of results)].

(** Printing [lines] one after the other, up to the first [print] that
    raises. *)
Fixpoint print_all `{Platform} (lines : list pystr) (w : World) : option Exn * World :=
  match lines with
  | [] => (None, w)
  | line :: rest =>
    match print line w with
    | (Some e, w') => (Some e, w')
    | (None, w') => print_all rest w'
    end
  end.

(** The texts [main] has synthesized for language [l], given the filter
    and the custom texts it ended up with: none when [l] is filtered out;
    the custom texts of [l] when either language has custom texts; the
    default questions otherwise. *)
Definition texts_for `{Platform} (l : Lang) (langs : list Lang)
    (sp tg : option (list pystr)) (g : HealthEquityAudioGenerator) : list pystr :=
  if bool_decide (l ∈ langs) then
    if truthy sp || truthy tg
    then default [] (match l with Spanish => sp | Tagalog => tg end)
    else questions_of l g
  else [].

(** [args] with another language filter. *)
Definition with_languages (langs : list Lang) (args : Args) : Args :=
  {| output := output args; spanish_file := spanish_file args;
     tagalog_file := tagalog_file args; spanish_texts := spanish_texts args;
     tagalog_texts := tagalog_texts args; languages := langs |}.

(** The file and the inline texts given for a language on the command
    line, and the other language. *)
Definition file_of (l : Lang) (args : Args) : option pystr :=
  match l with Spanish => spanish_file args | Tagalog => tagalog_file args end.

Definition texts_of (l : Lang) (args : Args) : option (list pystr) :=
  match l with Spanish => spanish_texts args | Tagalog => tagalog_texts args end.

Definition other (l : Lang) : Lang :=
  match l with Spanish => Tagalog | Tagalog => Spanish end.

(** Namespaces for runs with inline Spanish texts and no filter, with a
    Spanish file that does not exist and the filter set to Tagalog, and
    with a Spanish file and no filter. *)
Definition inline_spanish_args : Args :=
  {| output := py "out"; spanish_file := None; tagalog_file := None;
     spanish_texts := Some [py "hola"]; tagalog_texts := None;
     languages := [Spanish; Tagalog] |}.

Definition missing_file_args : Args :=
  {| output := py "out"; spanish_file := Some (py "missing.txt"); tagalog_file := None;
     spanish_texts := Some [py "hola"]; tagalog_texts := None;
     languages := [Tagalog] |}.

Definition spanish_file_args : Args :=
  {| output := py "out"; spanish_file := Some (py "preguntas.txt"); tagalog_file := None;
     spanish_texts := Some [py "adios"]; tagalog_texts := None;
     languages := [Spanish; Tagalog] |}.

(** [args] with another output directory. *)
Definition with_output (dir : pystr) (args : Args) : Args :=
  {| output := dir; spanish_file := spanish_file args;
     tagalog_file := tagalog_file args; spanish_texts := spanish_texts args;
     tagalog_texts := tagalog_texts args; languages := languages args |}.

(** * Properties *)

Example format_03d_1 : format_03d 1 = py "001".
Proof. reflexivity. Qed.
Example format_03d_42 : format_03d 42 = py "042".
Proof. reflexivity. Qed.
Example format_03d_1000 : format_03d 1000 = py "1000".
Proof. reflexivity. Qed.
Example split_ex : split 10 (py "a") = [py "a"] /\ split 47 (py "a//b/") = [py "a"; []; py "b"; []].
Proof. split; reflexivity. Qed.
Example nl_ex : translate_newlines [97; 13; 10; 98; 13; 99] = [97; 10; 98; 10; 99].
Proof. reflexivity. Qed.
Example defaults_ex :
  length default_spanish_questions = 10%nat
  /\ length default_tagalog_questions = 10%nat
  /\ Forall (fun q => q <> []) (default_spanish_questions ++ default_tagalog_questions)
  /\ head default_spanish_questions
     = Some ([0xAC; 0xF8] ++ py "Cu" ++ [0x221A; 0xB0] ++ py "les son mis valores de presi"
             ++ [0x221A; 0x2265] ++ py "n arterial hoy?").
Proof. repeat split; vm_compute; repeat constructor; done. Qed.
Example py_ex : py "¬ø" = [0xAC; 0xF8] /\ py "‚úÖ" = [0x201A; 0xFA; 0xD6].
Proof. split; reflexivity. Qed.

(** ** Decimal rendering *)

Lemma in_range_spec lo hi c : in_range lo hi c = true <-> lo <= c <= hi.
Proof. unfold in_range. rewrite andb_true_iff, !N.leb_le. done. Qed.

Lemma digits_aux_app fuel n acc : digits_aux fuel n acc = digits_aux fuel n [] ++ acc.
Proof.
  revert n acc. induction fuel as [|f IH]; intros n acc; simpl; [done|].
  destruct (n / 10 =? 0); [done|].
  rewrite IH, (IH _ [_]), <- app_assoc. done.
Qed.

Lemma int_of_snoc s c : int_of (s ++ [c]) = int_of s * 10 + (c - 48).
Proof. unfold int_of. by rewrite fold_left_app. Qed.

Lemma div_mod_10 n : exists q r, n / 10 = q /\ n mod 10 = r /\ n = 10 * q + r /\ r < 10.
Proof.
  exists (n / 10), (n mod 10). repeat split.
  - apply N.div_mod. lia.
  - apply N.mod_upper_bound. lia.
Qed.

Lemma int_of_digits_aux fuel n :
  n < 10 ^ N.of_nat (S fuel) -> int_of (digits_aux fuel n []) = n.
Proof.
  revert n. induction fuel as [|f IH]; intros n Hn.
  - change (10 ^ N.of_nat 1) with 10 in Hn. cbn [digits_aux].
    change [48 + n mod 10] with ([] ++ [48 + n mod 10]).
    rewrite int_of_snoc, N.mod_small by lia. cbn. lia.
  - cbn [digits_aux].
    assert (n / 10 < 10 ^ N.of_nat (S f)) as Hq.
    { apply N.Div0.div_lt_upper_bound.
      replace (N.of_nat (S (S f))) with (N.succ (N.of_nat (S f))) in Hn by lia.
      by rewrite N.pow_succ_r' in Hn. }
    specialize (IH (n / 10) Hq). clear Hn Hq.
    destruct (div_mod_10 n) as (q & r & Eq & Er & En & Hr).
    rewrite Eq, Er in *. destruct (N.eqb_spec q 0) as [Hz|Hz].
    + change [48 + r] with ([] ++ [48 + r]).
      rewrite int_of_snoc. cbn [int_of fold_left]. lia.
    + rewrite digits_aux_app, int_of_snoc, IH. lia.
Qed.

Lemma str_int_fuel n : n < 10 ^ N.of_nat (S (N.to_nat (N.log2 n))).
Proof.
  destruct (N.eq_dec n 0) as [->|Hn]; [done|].
  replace (N.of_nat (S (N.to_nat (N.log2 n)))) with (N.succ (N.log2 n)) by lia.
  destruct (N.log2_spec n) as [_ Hlt]; [lia|].
  eapply N.lt_le_trans; [exact Hlt|].
  apply N.pow_le_mono_l. lia.
Qed.

Lemma int_of_str_int n : int_of (str_int n) = n.
Proof. unfold str_int. apply int_of_digits_aux, str_int_fuel. Qed.

Lemma digits_aux_isdigit fuel n acc :
  Forall (fun c => isdigit c = true) acc ->
  Forall (fun c => isdigit c = true) (digits_aux fuel n acc).
Proof.
  revert n acc. induction fuel as [|f IH]; intros n acc Hacc.
  all: assert (isdigit (48 + n mod 10) = true) as Hd
      by (destruct (div_mod_10 n) as (q & r & _ & -> & _ & Hr);
          apply in_range_spec; lia).
  - by constructor.
  - cbn [digits_aux]. destruct (n / 10 =? 0); [by constructor|].
    apply IH. by constructor.
Qed.

Lemma int_of_zfill w s : int_of (zfill w s) = int_of s.
Proof.
  unfold zfill, int_of. rewrite fold_left_app.
  f_equal. induction (w - length s)%nat as [|k IH]; [done|]. exact IH.
Qed.

Lemma int_of_format_03d i : int_of (format_03d i) = N.of_nat i.
Proof. unfold format_03d. by rewrite int_of_zfill, int_of_str_int. Qed.

Lemma format_03d_inj i j : format_03d i = format_03d j -> i = j.
Proof.
  intros E. apply (f_equal int_of) in E. rewrite !int_of_format_03d in E. lia.
Qed.

Lemma format_03d_isdigit i : Forall (fun c => isdigit c = true) (format_03d i).
Proof.
  unfold format_03d, zfill. apply Forall_app. split.
  - apply Forall_replicate. done.
  - apply digits_aux_isdigit. constructor.
Qed.

Lemma format_03d_length_ge i : (3 <= length (format_03d i))%nat.
Proof. unfold format_03d, zfill. rewrite length_app, length_replicate. lia. Qed.

Lemma digits_aux_length fuel n : (1 <= length (digits_aux fuel n []))%nat.
Proof.
  destruct fuel; cbn [digits_aux]; [simpl; lia|].
  destruct (n / 10 =? 0); [simpl; lia|].
  rewrite digits_aux_app, length_app. simpl. lia.
Qed.

Lemma str_int_small n : n < 1000 -> (length (str_int n) <= 3)%nat.
Proof.
  intros Hn. unfold str_int.
  assert (N.log2 n < 10) as Hl.
  { destruct (N.eq_dec n 0) as [->|Hz]; [done|].
    apply N.log2_lt_pow2; [lia|]. change (2 ^ 10) with 1024. lia. }
  generalize (N.to_nat (N.log2 n)). intros fuel.
  destruct fuel as [|f]; [simpl; lia|]. cbn [digits_aux].
  destruct (N.eqb_spec (n / 10) 0) as [|H1]; [simpl; lia|].
  rewrite digits_aux_app, length_app. cbn [length].
  destruct f as [|f]; [simpl; lia|]. cbn [digits_aux].
  destruct (N.eqb_spec (n / 10 / 10) 0) as [|H2]; [simpl; lia|].
  rewrite digits_aux_app, length_app. cbn [length].
  assert (n / 10 / 10 < 10) as H3.
  { do 2 apply N.Div0.div_lt_upper_bound. lia. }
  destruct f as [|f]; [simpl; lia|]. cbn [digits_aux].
  rewrite N.div_small by lia. simpl. lia.
Qed.

Lemma format_03d_length_small i : (i <= 999)%nat -> length (format_03d i) = 3%nat.
Proof.
  intros Hi. unfold format_03d, zfill.
  pose proof (str_int_small (N.of_nat i) ltac:(lia)).
  rewrite length_app, length_replicate. lia.
Qed.

Lemma digits_aux_head fuel n acc :
  0 < n -> n < 10 ^ N.of_nat (S fuel) ->
  exists c rest, digits_aux fuel n acc = c :: rest /\ c <> 48.
Proof.
  revert n acc. induction fuel as [|f IH]; intros n acc Hpos Hn.
  - change (10 ^ N.of_nat 1) with 10 in Hn. cbn [digits_aux].
    eexists _, _. split; [done|]. rewrite N.mod_small by lia. lia.
  - cbn [digits_aux].
    assert (n / 10 < 10 ^ N.of_nat (S f)) as Hq.
    { apply N.Div0.div_lt_upper_bound.
      replace (N.of_nat (S (S f))) with (N.succ (N.of_nat (S f))) in Hn by lia.
      by rewrite N.pow_succ_r' in Hn. }
    specialize (IH (n / 10)). clear Hn.
    destruct (div_mod_10 n) as (q & r & Eq & Er & En & Hr).
    rewrite Eq, Er in *. destruct (N.eqb_spec q 0) as [Hz|Hz].
    + eexists _, _. split; [done|]. lia.
    + apply IH; [lia|done].
Qed.

Lemma format_03d_no_padding i :
  (3 < length (format_03d i))%nat -> head (format_03d i) <> Some 48.
Proof.
  unfold format_03d, zfill. rewrite length_app, length_replicate. intros Hlen.
  replace (3 - length (str_int (N.of_nat i)))%nat with 0%nat by lia.
  cbn [replicate app].
  assert (1000 <= N.of_nat i) as Hbig.
  { destruct (N.lt_ge_cases (N.of_nat i) 1000) as [Hs|]; [|done].
    apply str_int_small in Hs. lia. }
  destruct (digits_aux_head (N.to_nat (N.log2 (N.of_nat i))) (N.of_nat i) [])
    as (c & rest & E & Hc); [lia|apply str_int_fuel|].
  unfold str_int. rewrite E. cbn. congruence.
Qed.

(** ** Splitting and joining *)

Lemma split_nonempty sep s : split sep s <> [].
Proof.
  destruct s as [|c r]; cbn [split]; [done|].
  destruct (c =? sep); [done|]. by destruct (split sep r).
Qed.

Lemma split_no_sep sep s : Forall (fun c => c <> sep) s -> split sep s = [s].
Proof.
  induction 1 as [|c r Hc _ IH]; cbn [split]; [done|].
  destruct (N.eqb_spec c sep); [done|]. by rewrite IH.
Qed.

Lemma split_app_sep sep a b : split sep (a ++ sep :: b) = split sep a ++ split sep b.
Proof.
  induction a as [|c a IH]; cbn [split app].
  - by rewrite N.eqb_refl.
  - destruct (c =? sep); [by rewrite IH|].
    rewrite IH. pose proof (split_nonempty sep a). by destruct (split sep a).
Qed.

(** The pieces of a split contain no separator and join back to the
    string. *)
Lemma split_pieces sep s : Forall (Forall (fun c => c <> sep)) (split sep s).
Proof.
  induction s as [|c r IH]; cbn [split]; [by repeat constructor|].
  destruct (N.eqb_spec c sep) as [->|Hc]; [by constructor|].
  pose proof (split_nonempty sep r). destruct (split sep r) as [|x xs]; [done|].
  inversion IH; subst. by repeat constructor.
Qed.

Lemma join_cons sep x y ys : join sep (x :: y :: ys) = x ++ sep ++ join sep (y :: ys).
Proof. done. Qed.

Lemma join_split sep s : join [sep] (split sep s) = s.
Proof.
  induction s as [|c r IH]; cbn [split]; [done|].
  pose proof (split_nonempty sep r).
  destruct (N.eqb_spec c sep) as [->|Hc].
  - destruct (split sep r) as [|x xs]; [done|]. rewrite join_cons, IH. done.
  - destruct (split sep r) as [|x xs]; [done|].
    destruct xs as [|y ys]; cbn [join] in *; by rewrite <- IH.
Qed.

Lemma join_snoc sep ps x :
  join sep (ps ++ [x]) = match ps with [] => x | _ => join sep ps ++ sep ++ x end.
Proof.
  induction ps as [|p ps IH]; [done|].
  destruct ps as [|q ps]; [done|].
  change ((p :: q :: ps) ++ [x]) with (p :: q :: (ps ++ [x])).
  rewrite !join_cons. change (q :: ps ++ [x]) with ((q :: ps) ++ [x]).
  rewrite IH. by rewrite <- !app_assoc.
Qed.

(** ** File names and paths *)

Lemma lang_key_head l : exists c r, lang_key l = c :: r /\ c <> 47.
Proof. destruct l; eexists _, _; (split; [reflexivity|done]). Qed.

Lemma filename_no_slash l i : Forall (fun c => c <> 47) (filename_of l i).
Proof.
  unfold filename_of. rewrite !Forall_app. repeat split.
  - destruct l; vm_compute; repeat constructor; done.
  - vm_compute; repeat constructor; done.
  - eapply Forall_impl; [apply format_03d_isdigit|].
    intros c Hc%in_range_spec. lia.
  - vm_compute; repeat constructor; done.
Qed.

Lemma filename_length l i : (16 <= length (filename_of l i))%nat.
Proof.
  unfold filename_of. rewrite !length_app. pose proof (format_03d_length_ge i).
  destruct l; vm_compute (length (py _)); vm_compute (length (lang_key _)); lia.
Qed.

Lemma filename_inj l1 i1 l2 i2 :
  filename_of l1 i1 = filename_of l2 i2 -> l1 = l2 /\ i1 = i2.
Proof.
  unfold filename_of. intros E.
  assert (l1 = l2) as ->.
  { destruct l1, l2; try done; apply (f_equal head) in E; vm_compute in E; done. }
  split; [done|]. apply app_inv_head in E. apply app_inv_head in E.
  apply app_inv_tail in E. by apply format_03d_inj.
Qed.

Lemma filename_component l i : filename_of l i <> [] /\ filename_of l i <> [46].
Proof.
  pose proof (filename_length l i) as Hlen.
  split; intros E; rewrite E in Hlen; simpl in Hlen; lia.
Qed.

Lemma Path_of_filename l i :
  Path_of_str (filename_of l i) = {| root := []; parts := [filename_of l i] |}.
Proof.
  unfold Path_of_str. rewrite split_no_sep by apply filename_no_slash.
  pose proof (filename_length l i) as Hlen.
  destruct (lang_key_head l) as (c & r & E & Hc).
  f_equal.
  - unfold filename_of. rewrite E. cbn [app starts_with_sep].
    by destruct (N.eqb_spec c 47).
  - rewrite filter_cons_True; [done|apply filename_component].
Qed.

Lemma out_path_prefix dir l i : out_path dir l i = dir_prefix dir ++ filename_of l i.
Proof.
  unfold out_path, Path_div, Path_str, dir_prefix. rewrite Path_of_filename.
  cbn [root parts]. rewrite join_snoc.
  pose proof (filename_length l i) as Hlen.
  destruct (parts dir) as [|p ps].
  - rewrite app_nil_r. destruct (root dir); [|done].
    cbn [app]. destruct (filename_of l i); [simpl in Hlen; lia|done].
  - rewrite <- !app_assoc.
    destruct (root dir ++ join [47] (p :: ps) ++ [47] ++ filename_of l i) eqn:E; [|done].
    apply (f_equal length) in E. rewrite !length_app in E. simpl in E. lia.
Qed.

Lemma out_path_inj dir l1 i1 l2 i2 :
  out_path dir l1 i1 = out_path dir l2 i2 -> l1 = l2 /\ i1 = i2.
Proof.
  rewrite !out_path_prefix. intros E%app_inv_head. by apply filename_inj.
Qed.

Lemma dir_prefix_shape s :
  dir_prefix (Path_of_str s) = [] \/ exists a, dir_prefix (Path_of_str s) = a ++ [47].
Proof.
  unfold dir_prefix. destruct (parts (Path_of_str s)) as [|p ps].
  - rewrite app_nil_r. cbn [Path_of_str root].
    destruct (negb (starts_with_sep s)); [by left|].
    destruct (_ || _); right; [by exists []|by exists [47]].
  - right. exists (root (Path_of_str s) ++ join [47] (p :: ps)). by rewrite app_assoc.
Qed.

Lemma name_of_out_path s l i : name_of (out_path (Path_of_str s) l i) = filename_of l i.
Proof.
  rewrite out_path_prefix. unfold name_of, Path_name.
  assert (filter (fun x : pystr => x ≠ [] ∧ x ≠ [46]) [filename_of l i] = [filename_of l i])
    as Hf by (rewrite filter_cons_True; [done|apply filename_component]).
  destruct (dir_prefix_shape s) as [->|[a ->]]; cbn [Path_of_str parts].
  - cbn [app]. rewrite split_no_sep by apply filename_no_slash. by rewrite Hf.
  - rewrite <- app_assoc. cbn [app]. rewrite split_app_sep.
    rewrite (split_no_sep _ (filename_of l i)) by apply filename_no_slash.
    rewrite filter_app, Hf. apply last_last.
Qed.

Lemma out_path_not_dir dir l i : out_path dir l i <> Path_str dir.
Proof.
  rewrite out_path_prefix. unfold dir_prefix, Path_str. intros E.
  apply (f_equal length) in E. revert E.
  pose proof (filename_length l i).
  destruct (parts dir) as [|p ps].
  - rewrite !app_nil_r, length_app. destruct (root dir); simpl; lia.
  - rewrite !length_app.
    destruct (root dir ++ join [47] (p :: ps)) eqn:E'.
    + apply (f_equal length) in E'. rewrite length_app in E'. simpl in *. lia.
    + rewrite <- E'. rewrite !length_app. simpl. lia.
Qed.

(** ** The synthesis loop *)

Section Facts.
Context `{Platform}.

Lemma tts_to_file_spec h text sp path w :
  let '(o, w') := tts_to_file h text sp path w in
  calls w' = calls w ++ [{| call_text := text; call_speaker := sp; call_file_path := path |}]
  /\ log w' = log w /\ stdout w' = stdout w
  /\ (forall p, p <> path -> fs w' !! p = fs w !! p)
  /\ (forall p, is_Some (fs w !! p) -> is_Some (fs w' !! p))
  /\ (o = None -> is_Some (fs w' !! path)).
Proof.
  unfold tts_to_file.
  destruct (engine h text sp path w) as [a|e [d|]]; cbn; repeat split; try done.
  all: try (intros p Hp; by rewrite lookup_insert_ne).
  all: try (intros p Hp; destruct (decide (path = p)) as [->|];
            [by rewrite lookup_insert_eq|by rewrite lookup_insert_ne]).
  intros _. by rewrite lookup_insert_eq.
Qed.

Lemma loop_body_spec l i q gf m :
  let '(o, gf', m') := loop_body l i q gf m in
  self m' = self m
  /\ gf' = gf ++ match o with None => [filepath_of (self m) l i] | Some _ => [] end
  /\ calls (world m') = calls (world m) ++ [request (self m) l i q]
  /\ log (world m') = log (world m) ++ [item_record l i o]
  /\ stdout (world m') = stdout (world m)
  /\ (forall p, p <> filepath_of (self m) l i -> fs (world m') !! p = fs (world m) !! p)
  /\ (forall p, is_Some (fs (world m) !! p) -> is_Some (fs (world m') !! p))
  /\ (o = None -> is_Some (fs (world m') !! filepath_of (self m) l i)).
Proof.
  unfold loop_body.
  pose proof (tts_to_file_spec (tts (self m)) q (speaker l)
                (Path_str (Path_div (output_dir (self m)) (filename_of l i))) (world m)) as Hs.
  destruct (tts_to_file _ _ _ _ _) as [[e|] w1];
    destruct Hs as (Hc & Hl & Ho & Hf & Hk & Hn); cbn.
  - rewrite Hc, Hl, Ho, app_nil_r. repeat split; done.
  - rewrite Hc, Hl, Ho. repeat split; done.
Qed.

Lemma generate_loop_spec l qs : forall i gf m,
  let outs := loop_outcomes l i qs gf m in
  let '(r, m') := generate_loop l i qs gf m in
  self m' = self m /\ length outs = length qs
  /\ r = gf ++ (filepath_of (self m) l <$> successes i outs)
  /\ calls (world m') = calls (world m) ++ zip_with (request (self m) l) (seq i (length qs)) qs
  /\ log (world m') = log (world m) ++ zip_with (item_record l) (seq i (length qs)) outs
  /\ stdout (world m') = stdout (world m)
  /\ (forall p, p ∉ (filepath_of (self m) l <$> seq i (length qs)) ->
                fs (world m') !! p = fs (world m) !! p)
  /\ (forall p, is_Some (fs (world m) !! p) -> is_Some (fs (world m') !! p))
  /\ (forall j, j ∈ successes i outs -> is_Some (fs (world m') !! filepath_of (self m) l j)).
Proof.
  induction qs as [|q qs IH]; intros i gf m.
  - cbn. rewrite !app_nil_r. repeat split; try done. intros j Hj. by apply elem_of_nil in Hj.
  - cbn [generate_loop loop_outcomes length seq zip_with].
    pose proof (loop_body_spec l i q gf m) as Hb.
    destruct (loop_body l i q gf m) as [[o gf'] m1].
    destruct Hb as (Hself & Hgf & Hc & Hl & Ho & Hf & Hk & Hn).
    specialize (IH (S i) gf' m1). cbv zeta in IH.
    destruct (generate_loop l (S i) qs gf' m1) as [r m'].
    destruct IH as (Hself' & Hlen & Hr & Hc' & Hl' & Ho' & Hf' & Hk' & Hn').
    rewrite Hself in *. cbv zeta. repeat split.
    + done.
    + cbn. by rewrite Hlen.
    + rewrite Hr, Hgf. destruct o; cbn [successes fmap list_fmap];
        by rewrite <- app_assoc.
    + rewrite Hc', Hc, <- app_assoc. done.
    + rewrite Hl', Hl, <- app_assoc. done.
    + congruence.
    + intros p Hp. rewrite fmap_cons, not_elem_of_cons in Hp. destruct Hp as [Hp1 Hp2].
      rewrite Hf' by done. by apply Hf.
    + intros p Hp. by apply Hk', Hk.
    + intros j Hj. destruct o as [e|]; cbn [successes] in Hj.
      * by apply Hn'.
      * apply elem_of_cons in Hj as [->|Hj]; [|by apply Hn'].
        apply Hk'. by apply Hn.
Qed.

Lemma generate_audio_spec l custom m :
  let qs := effective_questions l custom (self m) in
  let outs := generate_outcomes l custom m in
  let '(r, m') := generate_audio l custom m in
  self m' = self m /\ length outs = length qs
  /\ r = filepath_of (self m) l <$> successes 1 outs
  /\ calls (world m') = calls (world m) ++ zip_with (request (self m) l) (seq 1 (length qs)) qs
  /\ log (world m') = log (world m)
                       ++ {| level := INFO; message := generating_msg l qs |}
                          :: zip_with (item_record l) (seq 1 (length qs)) outs
  /\ stdout (world m') = stdout (world m)
  /\ (forall p, p ∉ (filepath_of (self m) l <$> seq 1 (length qs)) ->
                 fs (world m') !! p = fs (world m) !! p)
  /\ (forall p, is_Some (fs (world m) !! p) -> is_Some (fs (world m') !! p))
  /\ (forall j, j ∈ successes 1 outs -> is_Some (fs (world m') !! filepath_of (self m) l j)).
Proof.
  unfold generate_audio, generate_outcomes. cbv zeta.
  set (qs := effective_questions l custom (self m)).
  set (m1 := on_world (logger_info (generating_msg l qs)) m).
  pose proof (generate_loop_spec l qs 1 [] m1) as Hs. cbv zeta in Hs.
  destruct (generate_loop l 1 qs [] m1) as [r m'].
  destruct Hs as (Hself & Hlen & Hr & Hc & Hl & Ho & Hf & Hk & Hn).
  subst m1. cbn in *. rewrite <- app_assoc in Hl. done.
Qed.

End Facts.

Lemma successes_app i o1 o2 :
  successes i (o1 ++ o2) = successes i o1 ++ successes (i + length o1) o2.
Proof.
  revert i. induction o1 as [|[e|] o1 IH]; intros i; cbn [successes app length].
  - by rewrite Nat.add_0_r.
  - rewrite IH. f_equal. f_equal. lia.
  - rewrite IH. cbn. do 3 f_equal. lia.
Qed.

Lemma successes_all i n : successes i (replicate n None) = seq i n.
Proof. revert i. induction n as [|n IH]; intros i; cbn; [done|]. by rewrite IH. Qed.

Lemma successes_sublist i outs : sublist (successes i outs) (seq i (length outs)).
Proof.
  revert i. induction outs as [|[e|] outs IH]; intros i; cbn [successes length seq].
  - constructor.
  - apply sublist_cons, IH.
  - apply sublist_skip, IH.
Qed.

(** ** Results of a generate call *)

Lemma effective_questions_custom `{Platform} l custom g :
  custom <> [] -> effective_questions l (Some custom) g = custom.
Proof. by destruct custom. Qed.

(** C1 (as amended).  For a non-empty caller-supplied list of N texts a
    generate call requests item [i], with the text at position [i], at the
    path of position [i], for every [i] in 1..N and in that order; it
    returns at most N paths, the paths of the positions whose request
    returned, in order.  The file name of position [i] is the language key,
    [_q], the decimal digits of [i] padded with zeros to three digits
    (exactly three up to 999, as many as the number needs from 1000 on) and
    [.wav]; no two positions share a file name, and no two returned paths
    do. *)
Theorem generate_names_by_position `{Platform} l custom m dir :
  custom <> [] -> output_dir (self m) = Path_of_str dir ->
  names_positions padded_to_three l custom m.
Proof.
  intros Hne Hdir. unfold names_positions. cbv zeta.
  pose proof (generate_audio_spec l (Some custom) m) as Hs. cbv zeta in Hs.
  rewrite effective_questions_custom in Hs by done.
  destruct (generate_audio l (Some custom) m) as [r m'].
  destruct Hs as (_ & Hlen & Hr & Hc & _).
  pose proof (successes_sublist 1 (generate_outcomes l (Some custom) m)) as Hsub.
  rewrite Hlen in Hsub.
  assert (forall i, name_of (filepath_of (self m) l i) = filename_of l i) as Hname.
  { intros i. unfold filepath_of. rewrite Hdir. apply name_of_out_path. }
  assert (forall i j, name_of (filepath_of (self m) l i) = name_of (filepath_of (self m) l j)
                      -> i = j) as Hinj.
  { intros i j E. rewrite !Hname in E. by apply filename_inj in E as [_ ?]. }
  split; [|split; [exact Hc|split; [exact Hr|split; [|split]]]].
  - rewrite Hr, length_fmap. apply sublist_length in Hsub. by rewrite length_seq in Hsub.
  - apply Forall_forall. intros i _. rewrite Hname.
    exists (format_03d i). repeat split.
    + apply format_03d_isdigit.
    + apply int_of_format_03d.
    + apply format_03d_length_ge.
    + apply format_03d_length_small.
    + apply format_03d_no_padding.
  - apply NoDup_fmap_2_strong; [|apply NoDup_seq].
    intros i j _ _ E. by apply Hinj.
  - rewrite Hr, <- list_fmap_compose.
    apply NoDup_fmap_2_strong.
    + intros i j _ _ E. by apply Hinj.
    + eapply sublist_NoDup; [apply NoDup_seq|exact Hsub].
Qed.

Lemma generate_names_by_position_witness :
  @names_positions (FakePlatform true false [py "adios"]) padded_to_three Spanish
    [py "hola"; py "adios"; py "gracias"] (fake_machine [py "adios"])
  /\ fst (generate_audio Spanish (Some [py "hola"; py "adios"; py "gracias"])
            (fake_machine [py "adios"]))
     = [py "out/spanish_q001.wav"; py "out/spanish_q003.wav"]
  /\ calls (world (snd (generate_audio Spanish (Some [py "hola"; py "adios"; py "gracias"])
                          (fake_machine [py "adios"]))))
     = [{| call_text := py "hola"; call_speaker := py "es";
           call_file_path := py "out/spanish_q001.wav" |};
        {| call_text := py "adios"; call_speaker := py "es";
           call_file_path := py "out/spanish_q002.wav" |};
        {| call_text := py "gracias"; call_speaker := py "es";
           call_file_path := py "out/spanish_q003.wav" |}].
Proof.
  assert (@names_positions (FakePlatform true false [py "adios"]) padded_to_three Spanish
            [py "hola"; py "adios"; py "gracias"] (fake_machine [py "adios"])) as Hn.
  { apply (@generate_names_by_position (FakePlatform true false [py "adios"]) Spanish
             [py "hola"; py "adios"; py "gracias"] (fake_machine [py "adios"]) (py "out")).
    - discriminate.
    - reflexivity. }
  split; [exact Hn|].
  unfold names_positions in Hn. cbv zeta in Hn.
  destruct (generate_audio Spanish (Some [py "hola"; py "adios"; py "gracias"])
              (fake_machine [py "adios"])) as [r m'].
  destruct Hn as (_ & Hc & Hr & _). cbn [fst snd]. split.
  - rewrite Hr. vm_compute. reflexivity.
  - rewrite Hc. vm_compute. reflexivity.
Defined.

Lemma fake_loop_outcomes l qs :
  forall i gf (m : @Machine (FakePlatform true false [])),
    loop_outcomes l i qs gf m = replicate (length qs) None.
Proof.
  induction qs as [|q qs IH]; intros i gf m; [done|].
  cbn [loop_outcomes length replicate]. unfold loop_body, tts_to_file.
  cbn [engine FakePlatform].
  rewrite bool_decide_eq_false_2 by apply not_elem_of_nil.
  f_equal. apply IH.
Qed.

(** C1 as stated fails: with 1000 texts the file requested for the last
    one, which is synthesized and returned, is [spanish_q1000.wav], whose
    index has four digits. *)
Lemma three_digit_names_fail :
  replicate 1000 (py "x") <> []
  /\ output_dir (self (fake_machine [])) = Path_of_str (py "out")
  /\ last (fst (generate_audio Spanish (Some (replicate 1000 (py "x"))) (fake_machine [])))
     = Some (py "out/spanish_q1000.wav")
  /\ ~ @names_positions (FakePlatform true false []) three_digits Spanish
         (replicate 1000 (py "x")) (fake_machine []).
Proof.
  split; [discriminate|]. split; [reflexivity|].
  pose proof (@generate_audio_spec (FakePlatform true false []) Spanish
                (Some (replicate 1000 (py "x"))) (fake_machine [])) as Hs.
  cbv zeta in Hs. unfold names_positions. cbv zeta.
  destruct (generate_audio Spanish (Some (replicate 1000 (py "x"))) (fake_machine []))
    as [r m'].
  destruct Hs as (_ & _ & Hr' & _).
  split.
  - cbn [fst]. unfold generate_outcomes in Hr'. rewrite fake_loop_outcomes in Hr'.
    change (effective_questions Spanish (Some (replicate 1000 (py "x")))
              (self (fake_machine []))) with (replicate 1000 (py "x")) in Hr'.
    rewrite length_replicate, successes_all in Hr'.
    rewrite Hr'. change 1000%nat with (999 + 1)%nat at 1.
    rewrite fmap_last, seq_app.
    change (seq (1 + 999) 1) with [1000%nat]. rewrite last_snoc. reflexivity.
  - intros (_ & _ & _ & Hall & _).
    rewrite Forall_forall in Hall.
    assert (1000%nat ∈ seq 1 (length (replicate 1000 (py "x")))) as Hi.
    { rewrite length_replicate. apply elem_of_seq. lia. }
    specialize (Hall _ Hi).
    unfold filepath_of in Hall. cbn [fake_machine self fake_generator output_dir] in Hall.
    rewrite name_of_out_path in Hall.
    destruct Hall as (d & E & _ & _ & Hd). unfold three_digits in Hd.
    unfold filename_of in E. do 2 apply app_inv_head in E. apply app_inv_tail in E.
    subst d. vm_compute in Hd. discriminate.
Qed.

(** C2.  If exactly one request of a generate call, the one for item [k],
    raises, the call still returns the paths of all other items in input
    order, the path of item [k] is not among them, an ERROR record naming
    the language and [k] is logged, and every item was requested: the
    batch did not stop at [k]. *)
Theorem one_failure_is_isolated `{Platform} l custom m k e :
  generate_outcomes l custom m
  = replicate (k - 1) None
    ++ Some e :: replicate (length (effective_questions l custom (self m)) - k) None ->
  let qs := effective_questions l custom (self m) in
  let '(r, m') := generate_audio l custom m in
  (1 <= k <= length qs)%nat
  /\ r = filepath_of (self m) l <$> (seq 1 (k - 1) ++ seq (S k) (length qs - k))
  /\ (filepath_of (self m) l k ∉ r)
  /\ length r = (length qs - 1)%nat
  /\ {| level := ERROR; message := failed_msg l k e |} ∈ log (world m')
  /\ calls (world m')
     = calls (world m) ++ zip_with (request (self m) l) (seq 1 (length qs)) qs.
Proof.
  intros Houts qs.
  pose proof (generate_audio_spec l custom m) as Hs. cbv zeta in Hs. fold qs in Hs, Houts.
  destruct (generate_audio l custom m) as [r m'].
  destruct Hs as (_ & Hlen & Hr & Hc & Hl & _).
  assert (1 <= k <= length qs)%nat as Hk.
  { rewrite Houts, length_app, length_cons, !length_replicate in Hlen. lia. }
  assert (successes 1 (generate_outcomes l custom m)
          = seq 1 (k - 1) ++ seq (S k) (length qs - k)) as Hsucc.
  { rewrite Houts, successes_app, successes_all, length_replicate.
    cbn [successes]. rewrite successes_all. do 2 f_equal. lia. }
  rewrite Hsucc in Hr. repeat split; try done; try lia.
  - rewrite Hr. intros Hin. apply list_elem_of_fmap in Hin as (j & E & Hj).
    apply out_path_inj in E as [_ <-].
    apply elem_of_app in Hj as [Hj|Hj]; apply elem_of_seq in Hj; lia.
  - rewrite Hr, length_fmap, length_app, !length_seq. lia.
  - rewrite Hl. apply elem_of_app. right. apply elem_of_cons. right.
    apply list_elem_of_lookup. exists (k - 1)%nat.
    apply lookup_zip_with_Some. exists k, (Some e). repeat split.
    + apply lookup_seq. lia.
    + rewrite Houts, lookup_app_r by (rewrite length_replicate; lia).
      rewrite length_replicate. by rewrite Nat.sub_diag.
Qed.

Lemma one_failure_is_isolated_witness :
  let P := FakePlatform true false [py "tres"] in
  let custom := Some [py "uno"; py "dos"; py "tres"; py "cuatro"; py "cinco"] in
  let '(r, m') := @generate_audio P Spanish custom (fake_machine [py "tres"]) in
  r = [py "out/spanish_q001.wav"; py "out/spanish_q002.wav";
       py "out/spanish_q004.wav"; py "out/spanish_q005.wav"]
  /\ {| level := ERROR;
        message := py "‚ùå Failed to generate audio for Spanish question 3: synthesis failed" |}
     ∈ log (world m').
Proof.
  pose proof (@one_failure_is_isolated (FakePlatform true false [py "tres"]) Spanish
                (Some [py "uno"; py "dos"; py "tres"; py "cuatro"; py "cinco"])
                (fake_machine [py "tres"]) 3 (Exception (py "synthesis failed"))
                ltac:(vm_compute; reflexivity)) as Hw.
  cbv zeta in *.
  destruct (generate_audio Spanish _ (fake_machine [py "tres"])) as [r m'].
  destruct Hw as (_ & Hr & _ & _ & Hlog & _). split.
  - rewrite Hr. vm_compute. reflexivity.
  - exact Hlog.
Defined.

(** ** generate_custom_audio *)

Lemma truthy_default {A} (o : option (list A)) : truthy o = false -> default [] o = [].
Proof. by destruct o as [[|]|]. Qed.

Lemma effective_questions_truthy `{Platform} l o g :
  truthy o = true -> effective_questions l o g = default [] o.
Proof. by destruct o as [[|]|]. Qed.

(** What [generate_custom_audio] requests and returns, for any pair of
    arguments. *)
Lemma generate_custom_audio_spec `{Platform} sp tg m :
  let '(res, m') := generate_custom_audio sp tg m in
  exists rs rt,
    res = [(py "spanish", rs); (py "tagalog", rt)]
    /\ self m' = self m
    /\ (truthy sp = false -> rs = [])
    /\ (truthy tg = false -> rt = [])
    /\ (forall p, p ∈ rs -> exists i, p = filepath_of (self m) Spanish i)
    /\ (forall p, p ∈ rt -> exists i, p = filepath_of (self m) Tagalog i)
    /\ calls (world m')
        = calls (world m)
          ++ zip_with (request (self m) Spanish) (seq 1 (length (default [] sp))) (default [] sp)
          ++ zip_with (request (self m) Tagalog) (seq 1 (length (default [] tg))) (default [] tg)
    /\ stdout (world m') = stdout (world m)
    /\ (forall p, p ∉ (filepath_of (self m) Spanish <$> seq 1 (length (default [] sp))) ->
                   p ∉ (filepath_of (self m) Tagalog <$> seq 1 (length (default [] tg))) ->
                   fs (world m') !! p = fs (world m) !! p).
Proof.
  unfold generate_custom_audio, generate_spanish_audio, generate_tagalog_audio.
  destruct (truthy sp) eqn:Hsp.
  - set (m0 := on_world _ m).
    pose proof (generate_audio_spec Spanish sp m0) as Hs. cbv zeta in Hs.
    rewrite effective_questions_truthy in Hs by done.
    destruct (generate_audio Spanish sp m0) as [rs m1].
    destruct Hs as (Hself & _ & Hr & Hc & _ & Ho & Hf & _).
    destruct (truthy tg) eqn:Htg.
    + set (m1' := on_world _ m1).
      pose proof (generate_audio_spec Tagalog tg m1') as Ht. cbv zeta in Ht.
      rewrite effective_questions_truthy in Ht by done.
      destruct (generate_audio Tagalog tg m1') as [rt m2].
      destruct Ht as (Hself' & _ & Hr' & Hc' & _ & Ho' & Hf' & _).
      subst m0 m1'. cbn in *. rewrite Hself in *.
      exists rs, rt. repeat split; try done; try congruence.
      * intros p Hp. rewrite Hr in Hp. apply list_elem_of_fmap in Hp as (i & -> & _). by exists i.
      * intros p Hp. rewrite Hr' in Hp. apply list_elem_of_fmap in Hp as (i & -> & _). by exists i.
      * rewrite Hc', Hc, <- app_assoc. done.
      * intros p Hp1 Hp2. rewrite Hf' by done. by apply Hf.
    + subst m0. cbn in *. rewrite (truthy_default tg Htg). cbn.
      exists rs, []. rewrite app_nil_r. repeat split; try done.
      * intros p Hp. rewrite Hr in Hp. apply list_elem_of_fmap in Hp as (i & -> & _). by exists i.
      * intros p Hp. by apply elem_of_nil in Hp.
      * intros p Hp1 _. by apply Hf.
  - rewrite (truthy_default sp Hsp). cbn [length seq zip_with app].
    destruct (truthy tg) eqn:Htg.
    + set (m0 := on_world _ m).
      pose proof (generate_audio_spec Tagalog tg m0) as Ht. cbv zeta in Ht.
      rewrite effective_questions_truthy in Ht by done.
      destruct (generate_audio Tagalog tg m0) as [rt m2].
      destruct Ht as (Hself' & _ & Hr' & Hc' & _ & Ho' & Hf' & _).
      subst m0. cbn in *.
      exists [], rt. repeat split; try done.
      * intros p Hp. by apply elem_of_nil in Hp.
      * intros p Hp. rewrite Hr' in Hp. apply list_elem_of_fmap in Hp as (i & -> & _). by exists i.
      * intros p _ Hp2. by apply Hf'.
    + rewrite (truthy_default tg Htg). cbn. exists [], []. rewrite app_nil_r.
      repeat split; try done; intros p Hp; by apply elem_of_nil in Hp.
Qed.

(** C3.  In [generate_custom_audio] a language whose list is [None] is
    skipped: its entry in the result is the empty list, no synthesis
    request is made for it, and the requests that are made carry exactly
    the supplied texts of the other language, never the default
    questions. *)
Theorem omitted_language_is_skipped `{Platform} texts m :
  (let '(res, m') := generate_custom_audio None texts m in
   exists rt, res = [(py "spanish", []); (py "tagalog", rt)]
              /\ calls (world m')
                  = calls (world m)
                    ++ zip_with (request (self m) Tagalog)
                         (seq 1 (length (default [] texts))) (default [] texts)
              /\ Forall (fun c => call_speaker c <> speaker Spanish)
                        (drop (length (calls (world m))) (calls (world m'))))
  /\ (let '(res, m') := generate_custom_audio texts None m in
      exists rs, res = [(py "spanish", rs); (py "tagalog", [])]
                 /\ calls (world m')
                     = calls (world m)
                       ++ zip_with (request (self m) Spanish)
                            (seq 1 (length (default [] texts))) (default [] texts)
                 /\ Forall (fun c => call_speaker c <> speaker Tagalog)
                           (drop (length (calls (world m))) (calls (world m'))))
  /\ generate_custom_audio None None m = ([(py "spanish", []); (py "tagalog", [])], m).
Proof.
  assert (forall l (g : HealthEquityAudioGenerator) n (qs : list pystr) l',
             l <> l' ->
             Forall (fun c => call_speaker c <> speaker l')
                    (zip_with (request g l) (seq 1 n) qs)) as Hsp.
  { intros l g n qs l' Hne. apply Forall_forall. intros c Hc.
    apply list_elem_of_lookup in Hc as [j Hc].
    apply lookup_zip_with_Some in Hc as (i & q & -> & _ & _).
    cbn. by destruct l, l'. }
  repeat split.
  - pose proof (generate_custom_audio_spec None texts m) as Hs.
    destruct (generate_custom_audio None texts m) as [res m'].
    destruct Hs as (rs & rt & Hres & _ & Hrs & _ & _ & _ & Hc & _).
    rewrite (Hrs eq_refl) in Hres. cbn in Hc. exists rt. repeat split; [done..|].
    rewrite Hc, drop_app_length. by apply Hsp.
  - pose proof (generate_custom_audio_spec texts None m) as Hs.
    destruct (generate_custom_audio texts None m) as [res m'].
    destruct Hs as (rs & rt & Hres & _ & _ & Hrt & _ & _ & Hc & _).
    rewrite (Hrt eq_refl) in Hres. cbn in Hc. rewrite app_nil_r in Hc.
    exists rs. repeat split; [done..|].
    rewrite Hc, drop_app_length. by apply Hsp.
Qed.

(** ** Initialization *)

Lemma Path_mkdir_exist_ok_spec `{Platform} dir w :
  Path_mkdir_exist_ok dir w
  = match fs w !! Path_str dir with
    | Some Dir => (None, w)
    | Some (File d) => (Some (FileExistsError (Path_str dir)), w)
    | None =>
      match mkdir_refused (Path_str dir) w with
      | Some e => (Some e, w)
      | None => (None, set_fs (<[Path_str dir := Dir]> (fs w)) w)
      end
    end.
Proof.
  unfold Path_mkdir_exist_ok, os_mkdir, Path_is_dir.
  destruct (fs w !! Path_str dir) as [[|d]|] eqn:E; cbn; rewrite ?E; try done.
  destruct (mkdir_refused (Path_str dir) w) as [e|]; [|done].
  destruct e; cbn; rewrite ?E; done.
Qed.

Lemma set_fs_same w p : fs w !! p = Some Dir -> set_fs (<[p := Dir]> (fs w)) w = w.
Proof. intros E. unfold set_fs. rewrite insert_id by done. by destruct w. Qed.

(** C4.  With [p] the output directory: when [p] is a directory already or
    can be made and the model loads, initialization succeeds, [p] is a
    directory afterwards and nothing else in the file system changed (so
    nothing at all when [p] was there), and initializing again succeeds
    the same way; when the model cannot be loaded or [p] cannot be made,
    the exception leaves the constructor, [main] makes no synthesis
    request and the exit status is 1. *)
Theorem initialization `{Platform} dir w :
  let p := Path_str (Path_of_str dir) in
  let loading := logger_info (py "Loading TTS model...") (set_fs (<[p := Dir]> (fs w)) w) in
  (forall h,
      fs w !! p = Some Dir \/ (fs w !! p = None /\ mkdir_refused p w = None) ->
      TTS model_name loading = inr h ->
      exists g w1,
        __init__ dir w = (inr g, w1)
        /\ fs w1 = <[p := Dir]> (fs w) /\ fs w1 !! p = Some Dir
        /\ (fs w !! p = Some Dir -> fs w1 = fs w)
        /\ output_dir g = Path_of_str dir /\ tts g = h
        /\ (forall h2, TTS model_name (logger_info (py "Loading TTS model...") w1) = inr h2 ->
                        exists g2 w2, __init__ dir w1 = (inr g2, w2) /\ fs w2 = fs w1))
  /\ (forall e,
        fs w !! p = Some Dir \/ (fs w !! p = None /\ mkdir_refused p w = None) ->
        TTS model_name loading = inl e ->
        (exists w1, __init__ dir w = (inl e, w1) /\ calls w1 = calls w)
        /\ (forall args, output args = dir ->
                          fst (main args w) = 1 /\ calls (snd (main args w)) = calls w))
  /\ (forall e,
        (fs w !! p = None /\ mkdir_refused p w = Some e)
        \/ (exists d, fs w !! p = Some (File d) /\ e = FileExistsError p) ->
        __init__ dir w = (inl e, w)
        /\ (forall args, output args = dir ->
                          fst (main args w) = 1 /\ calls (snd (main args w)) = calls w
                          /\ fs (snd (main args w)) = fs w)).
Proof.
  intros p loading.
  assert (fs w !! p = Some Dir \/ (fs w !! p = None /\ mkdir_refused p w = None) ->
          Path_mkdir_exist_ok (Path_of_str dir) w = (None, set_fs (<[p := Dir]> (fs w)) w))
    as Hready.
  { intros [E|[E1 E2]]; rewrite Path_mkdir_exist_ok_spec; fold p.
    - rewrite E. by rewrite set_fs_same.
    - by rewrite E1, E2. }
  assert (forall e,
             (fs w !! p = None /\ mkdir_refused p w = Some e)
             \/ (exists d, fs w !! p = Some (File d) /\ e = FileExistsError p) ->
             Path_mkdir_exist_ok (Path_of_str dir) w = (Some e, w)) as Hfail.
  { intros e [[E1 E2]|(d & E & ->)]; rewrite Path_mkdir_exist_ok_spec; fold p.
    - by rewrite E1, E2.
    - by rewrite E. }
  split; [|split].
  - intros h Hdir Hload. unfold __init__. rewrite (Hready Hdir). fold p loading. rewrite Hload.
    eexists _, _. split; [reflexivity|].
    set (w1 := logger_info _ (logger_info _ loading)).
    assert (fs w1 = <[p := Dir]> (fs w)) as Efs by done.
    assert (fs w1 !! p = Some Dir) as E1 by (rewrite Efs; apply lookup_insert_eq).
    repeat split; try done.
    + intros E. rewrite Efs. by apply insert_id.
    + intros h2 Hload2. unfold __init__. rewrite Path_mkdir_exist_ok_spec. fold p.
      rewrite E1, Hload2. eexists _, _. split; [reflexivity|done].
  - intros e Hdir Hload.
    assert (__init__ dir w = (inl e, logger_error (py "Failed to load TTS model: " ++ exn_str e)
                                   loading)) as Einit.
    { unfold __init__. rewrite (Hready Hdir). fold p loading. by rewrite Hload. }
    split; [by eexists|].
    intros args <-. unfold main. by rewrite Einit.
  - intros e Hbad.
    assert (__init__ dir w = (inl e, w)) as Einit.
    { unfold __init__. by rewrite (Hfail e Hbad). }
    split; [done|].
    intros args <-. unfold main. by rewrite Einit.
Qed.

Lemma initialization_witness :
  (exists g w1, @__init__ (FakePlatform true false []) (py "health_audio_output") empty_world
                = (inr g, w1)
                /\ fs w1 !! py "health_audio_output" = Some Dir)
  /\ fst (@main (FakePlatform false false []) default_args empty_world) = 1
  /\ fst (@main (FakePlatform true true []) default_args empty_world) = 1.
Proof.
  split; [|split].
  - destruct (@initialization (FakePlatform true false []) (py "health_audio_output")
                empty_world) as (Hok & _ & _).
    destruct (Hok tt (or_intror (conj eq_refl eq_refl)) eq_refl)
      as (g & w1 & E & _ & Hd & _).
    exists g, w1. split; [exact E|exact Hd].
  - destruct (@initialization (FakePlatform false false []) (py "health_audio_output")
                empty_world) as (_ & Hmodel & _).
    destruct (Hmodel (Exception (py "model unavailable"))
                (or_intror (conj eq_refl eq_refl)) eq_refl) as (_ & Hmain).
    exact (proj1 (Hmain default_args eq_refl)).
  - destruct (@initialization (FakePlatform true true []) (py "health_audio_output")
                empty_world) as (_ & _ & Hdir).
    destruct (Hdir (OSError (py "Read-only file system"))
                (or_introl (conj eq_refl eq_refl))) as (_ & Hmain).
    exact (proj1 (Hmain default_args eq_refl)).
Defined.

(** ** Stripping *)

Lemma lstrip_decomp s : exists a, s = a ++ lstrip s /\ blank a.
Proof.
  induction s as [|c r (a & E & Ha)]; [exists []; split; [done|constructor]|].
  cbn [lstrip]. destruct (isspace c) eqn:Hc.
  - exists (c :: a). split; [cbn; by f_equal|by constructor].
  - exists []. split; [done|constructor].
Qed.

Lemma lstrip_head s c : head (lstrip s) = Some c -> isspace c = false.
Proof.
  induction s as [|d r IH]; [done|]. cbn [lstrip].
  destruct (isspace d) eqn:Hd; [done|]. cbn. congruence.
Qed.

Lemma lstrip_blank s : blank s -> lstrip s = [].
Proof. induction 1 as [|c r Hc _ IH]; [done|]. cbn [lstrip]. by rewrite Hc. Qed.

Lemma rstrip_decomp s : exists b, s = rstrip s ++ b /\ blank b.
Proof.
  destruct (lstrip_decomp (rev s)) as (a & E & Ha).
  exists (rev a). split.
  - unfold rstrip. rewrite <- rev_app_distr, <- E. by rewrite rev_involutive.
  - by apply Forall_rev.
Qed.

Lemma rstrip_last s c : last (rstrip s) = Some c -> isspace c = false.
Proof.
  unfold rstrip. rewrite rev_alt. fold (reverse (lstrip (rev s))).
  rewrite last_reverse. apply lstrip_head.
Qed.

Lemma strip_decomp s : exists a b, s = a ++ strip s ++ b /\ blank a /\ blank b.
Proof.
  destruct (lstrip_decomp s) as (a & E & Ha).
  destruct (rstrip_decomp (lstrip s)) as (b & E' & Hb).
  exists a, b. unfold strip. by rewrite <- E'.
Qed.

Lemma strip_blank s : strip s = [] <-> blank s.
Proof.
  split.
  - intros E. destruct (strip_decomp s) as (a & b & Es & Ha & Hb).
    rewrite E in Es. rewrite Es. by apply Forall_app.
  - intros Hs. unfold strip. by rewrite lstrip_blank.
Qed.

Lemma strip_head s c : head (strip s) = Some c -> isspace c = false.
Proof.
  destruct (rstrip_decomp (lstrip s)) as (b & E & _). fold (strip s) in E.
  intros Hh. apply (lstrip_head s). rewrite E.
  destruct (strip s); [done|]. exact Hh.
Qed.

Lemma strip_last s c : last (strip s) = Some c -> isspace c = false.
Proof. apply rstrip_last. Qed.

(** ** load_texts_from_file *)

Lemma load_texts_of_content `{Platform} file_path w content :
  open_read file_path w = inr content ->
  fst (load_texts_from_file file_path w)
  = strip <$> filter (fun line => ~ blank line) (split 10 content).
Proof.
  intros E. unfold load_texts_from_file, load_texts_try. rewrite E. cbn [fst].
  f_equal. apply list_filter_iff. intros line. by rewrite strip_blank.
Qed.

(** C5.  For a file that decodes as UTF-8, with [lines] the pieces of its
    text between newlines: [load_texts_from_file] returns, in order, the
    stripped form of every line that is not blank; stripping a line
    removes white space at both ends and nothing else; no returned text is
    empty or starts or ends with white space.  The file
    ["a\n\nb\n  \nc\n"] gives [a], [b], [c]. *)
Theorem load_texts_lines `{Platform} file_path w data text :
  open_refused file_path w = None ->
  fs w !! file_path = Some (File data) ->
  utf8_decode data = Some text ->
  let lines := split 10 (translate_newlines text) in
  let texts := fst (load_texts_from_file file_path w) in
  join [10] lines = translate_newlines text
  /\ Forall (Forall (fun c => c <> 10)) lines
  /\ texts = strip <$> filter (fun line => ~ blank line) lines
  /\ (forall line, exists a b, line = a ++ strip line ++ b /\ blank a /\ blank b)
  /\ Forall (fun t => t <> []
                      /\ (forall c, head t = Some c -> isspace c = false)
                      /\ (forall c, last t = Some c -> isspace c = false)) texts
  /\ (data = [x61; x0a; x0a; x62; x0a; x20; x20; x0a; x63; x0a] ->
      texts = [py "a"; py "b"; py "c"]).
Proof.
  intros Hopen Hfile Hdec lines texts.
  assert (open_read file_path w = inr (translate_newlines text)) as Hread
      by (unfold open_read; by rewrite Hopen, Hfile, Hdec).
  assert (texts = strip <$> filter (fun line => ~ blank line) lines) as Htexts
      by (by apply load_texts_of_content).
  repeat split.
  - apply join_split.
  - apply split_pieces.
  - done.
  - apply strip_decomp.
  - rewrite Htexts. apply Forall_fmap, Forall_forall. intros line Hline.
    apply list_elem_of_filter in Hline as [Hnb _]. cbn. repeat split.
    + by rewrite strip_blank.
    + apply strip_head.
    + apply strip_last.
  - intros ->. injection Hdec as <-. rewrite Htexts. subst lines. vm_compute. reflexivity.
Qed.

Lemma load_texts_lines_witness :
  fst (@load_texts_from_file (FakePlatform true false []) (py "textos.txt")
         (world_with_file (py "textos.txt")
            [x61; x0a; x0a; x62; x0a; x20; x20; x0a; x63; x0a]))
  = [py "a"; py "b"; py "c"].
Proof.
  refine (proj2 (proj2 (proj2 (proj2 (proj2
    (@load_texts_lines (FakePlatform true false []) (py "textos.txt")
       (world_with_file (py "textos.txt")
          [x61; x0a; x0a; x62; x0a; x20; x20; x0a; x63; x0a])
       [x61; x0a; x0a; x62; x0a; x20; x20; x0a; x63; x0a]
       [97; 10; 10; 98; 10; 32; 32; 10; 99; 10] eq_refl _ eq_refl))))) eq_refl).
  vm_compute. reflexivity.
Defined.

(** C9.  [load_texts_from_file] returns a list for every path and world.
    Whenever opening, reading or decoding raises (the open is refused,
    nothing or a directory is at the path, the bytes are not UTF-8) it
    logs the error and returns the empty list, which is also what it
    returns for a file all of whose lines are blank. *)
Theorem load_texts_never_raises `{Platform} file_path w :
  (exists texts w', load_texts_from_file file_path w = (texts, w'))
  /\ (forall e, open_read file_path w = inl e ->
                load_texts_from_file file_path w
                = ([], logger_error (py "Error loading texts from file: " ++ exn_str e) w))
  /\ (forall e, open_refused file_path w = Some e -> open_read file_path w = inl e)
  /\ (open_refused file_path w = None -> fs w !! file_path = None ->
      open_read file_path w = inl (FileNotFoundError file_path))
  /\ (open_refused file_path w = None -> fs w !! file_path = Some Dir ->
      open_read file_path w = inl (IsADirectoryError file_path))
  /\ (forall data, open_refused file_path w = None ->
                   fs w !! file_path = Some (File data) -> utf8_decode data = None ->
                   open_read file_path w = inl UnicodeDecodeError)
  /\ (forall content, open_read file_path w = inr content ->
                      Forall blank (split 10 content) ->
                      fst (load_texts_from_file file_path w) = []).
Proof.
  repeat split.
  - destruct (load_texts_from_file file_path w) as [texts w']. by exists texts, w'.
  - intros e E. unfold load_texts_from_file, load_texts_try. by rewrite E.
  - intros e E. unfold open_read. by rewrite E.
  - intros E1 E2. unfold open_read. by rewrite E1, E2.
  - intros E1 E2. unfold open_read. by rewrite E1, E2.
  - intros data E1 E2 E3. unfold open_read. by rewrite E1, E2, E3.
  - intros content E Hall. rewrite (load_texts_of_content _ _ _ E).
    induction Hall as [|line rest Hline _ IH]; [done|].
    rewrite filter_cons_False; [exact IH|]. by intros Hn.
Qed.

Lemma load_texts_never_raises_witness :
  @load_texts_from_file (FakePlatform true false []) (py "missing.txt") empty_world
  = ([], logger_error (py "Error loading texts from file: No such file or directory: missing.txt")
           empty_world)
  /\ fst (@load_texts_from_file (FakePlatform true false []) (py "bad.txt")
            (world_with_file (py "bad.txt") [xff; xfe])) = []
  /\ fst (@load_texts_from_file (FakePlatform true false []) (py "blank.txt")
            (world_with_file (py "blank.txt") [x20; x0a; x09; x0a])) = [].
Proof.
  split; [|split].
  - destruct (@load_texts_never_raises (FakePlatform true false []) (py "missing.txt")
                empty_world) as (_ & Hraise & _ & Hmissing & _).
    exact (Hraise _ (Hmissing eq_refl eq_refl)).
  - destruct (@load_texts_never_raises (FakePlatform true false []) (py "bad.txt")
                (world_with_file (py "bad.txt") [xff; xfe]))
      as (_ & Hraise & _ & _ & _ & Hutf & _).
    assert (fs (world_with_file (py "bad.txt") [xff; xfe]) !! py "bad.txt"
            = Some (File [xff; xfe])) as Hf by (vm_compute; reflexivity).
    rewrite (Hraise _ (Hutf _ eq_refl Hf eq_refl)). reflexivity.
  - destruct (@load_texts_never_raises (FakePlatform true false []) (py "blank.txt")
                (world_with_file (py "blank.txt") [x20; x0a; x09; x0a]))
      as (_ & _ & _ & _ & _ & _ & Hblank).
    apply (Hblank [32; 10; 9; 10]).
    + vm_compute. reflexivity.
    + vm_compute. repeat constructor.
Defined.

(** ** The object is never modified *)

Lemma generate_audio_self `{Platform} l custom m : self (snd (generate_audio l custom m)) = self m.
Proof.
  pose proof (generate_audio_spec l custom m) as Hs. cbv zeta in Hs.
  destruct (generate_audio l custom m) as [r m']. by destruct Hs as (E & _).
Qed.

Lemma generate_all_audio_self `{Platform} m : self (snd (generate_all_audio m)) = self m.
Proof.
  unfold generate_all_audio, generate_spanish_audio, generate_tagalog_audio.
  set (m0 := on_world _ m).
  pose proof (generate_audio_self Spanish None m0) as H1.
  destruct (generate_audio Spanish None m0) as [rs m1].
  pose proof (generate_audio_self Tagalog None m1) as H2.
  destruct (generate_audio Tagalog None m1) as [rt m2].
  cbn in *. congruence.
Qed.

Lemma generate_custom_audio_self `{Platform} sp tg m :
  self (snd (generate_custom_audio sp tg m)) = self m.
Proof.
  pose proof (generate_custom_audio_spec sp tg m) as Hs.
  destruct (generate_custom_audio sp tg m) as [res m'].
  by destruct Hs as (rs & rt & _ & E & _).
Qed.

(** C10.  After any sequence of generate operations the object is the one
    it was: same output directory, same synthesis handle, same default
    Spanish and Tagalog questions. *)
Theorem generate_leaves_orchestrator `{Platform} ops m :
  self (run_ops ops m) = self m
  /\ output_dir (self (run_ops ops m)) = output_dir (self m)
  /\ tts (self (run_ops ops m)) = tts (self m)
  /\ spanish_questions (self (run_ops ops m)) = spanish_questions (self m)
  /\ tagalog_questions (self (run_ops ops m)) = tagalog_questions (self m).
Proof.
  assert (self (run_ops ops m) = self m) as E.
  { revert m. induction ops as [|o ops IH]; intros m; [done|].
    cbn [run_ops fold_left]. fold (run_ops ops (run_op o m)). rewrite IH.
    destruct o; cbn [run_op].
    - apply generate_audio_self.
    - apply generate_audio_self.
    - apply generate_all_audio_self.
    - apply generate_custom_audio_self. }
  by rewrite E.
Qed.

(** ** Defaults *)



(** ** Running a generate call again *)





(** ** The language filter *)

Section Filter.
Context `{Platform}.

Lemma within_refl langs m : within langs m m.
Proof.
  split; [done|]. split; [|done]. exists []. split; [by rewrite app_nil_r|constructor].
Qed.

Lemma within_trans langs m1 m2 m3 :
  within langs m1 m2 -> within langs m2 m3 -> within langs m1 m3.
Proof.
  intros (Hs1 & (n1 & Hc1 & Hn1) & Hf1) (Hs2 & (n2 & Hc2 & Hn2) & Hf2).
  rewrite Hs1 in *. split; [done|]. split.
  - exists (n1 ++ n2). rewrite Hc2, Hc1, <- app_assoc. split; [done|]. by apply Forall_app.
  - intros p Hp. rewrite Hf2 by done. by apply Hf1.
Qed.

Lemma within_logger langs msg m : within langs m (on_world (logger_info msg) m).
Proof.
  split; [done|]. split; [|done]. exists []. split; [by rewrite app_nil_r|constructor].
Qed.

Lemma requests_selected g l langs k n qs :
  l ∈ langs ->
  Forall (for_selected langs (output_dir g)) (zip_with (request g l) (seq k n) qs).
Proof.
  intros Hl. apply Forall_forall. intros c Hc.
  apply list_elem_of_lookup in Hc as [j Hc].
  apply lookup_zip_with_Some in Hc as (i & q & -> & _ & _).
  by exists l, i.
Qed.

Lemma generate_audio_within l custom m langs :
  l ∈ langs -> within langs m (snd (generate_audio l custom m)).
Proof.
  intros Hl. pose proof (generate_audio_spec l custom m) as Hs. cbv zeta in Hs.
  destruct (generate_audio l custom m) as [r m'].
  destruct Hs as (Hself & _ & _ & Hc & _ & _ & Hf & _). cbn [snd].
  split; [done|]. split.
  - eexists. split; [exact Hc|]. by apply requests_selected.
  - intros p Hp. apply Hf. intros Hin.
    apply list_elem_of_fmap in Hin as (i & -> & _). by apply (Hp l i).
Qed.

Lemma generate_custom_audio_within sp tg m langs :
  (truthy sp = true -> Spanish ∈ langs) -> (truthy tg = true -> Tagalog ∈ langs) ->
  within langs m (snd (generate_custom_audio sp tg m)).
Proof.
  intros Hsp Htg. unfold generate_custom_audio, generate_spanish_audio, generate_tagalog_audio.
  assert (exists m1 rs,
             within langs m m1
             /\ (if truthy sp
                 then generate_audio Spanish sp
                        (on_world (logger_info (py "Generating custom Spanish audio for "
                                                ++ str_int (len (default [] sp))
                                                ++ py " texts...")) m)
                 else ([], m)) = (rs, m1)) as (m1 & rs & Hw1 & ->).
  { destruct (truthy sp).
    - eexists _, _. split; [|apply surjective_pairing].
      eapply within_trans; [apply within_logger|]. apply generate_audio_within. by apply Hsp.
    - eexists _, _. split; [apply within_refl|done]. }
  destruct (truthy tg).
  - eapply within_trans; [exact Hw1|].
    set (m1' := on_world _ m1).
    pose proof (generate_audio_within Tagalog tg m1' langs (Htg eq_refl)) as Hw2.
    destruct (generate_audio Tagalog tg m1') as [rt m2]. cbn [snd] in *.
    eapply within_trans; [apply within_logger|exact Hw2].
  - done.
Qed.

Lemma generate_selected_within langs sp tg m :
  within langs m (snd (generate_selected langs sp tg m)).
Proof.
  unfold generate_selected. destruct (truthy sp || truthy tg).
  - apply generate_custom_audio_within.
    + destruct (bool_decide_reflect (Spanish ∈ langs)); [done|discriminate].
    + destruct (bool_decide_reflect (Tagalog ∈ langs)); [done|discriminate].
  - unfold generate_spanish_audio, generate_tagalog_audio.
    assert (exists m1 r1,
               within langs m m1
               /\ (if bool_decide (Spanish ∈ langs)
                   then let '(fsp, m1) := generate_audio Spanish None m in
                        ([(py "spanish", fsp)], m1)
                   else ([], m)) = (r1, m1)) as (m1 & r1 & Hw1 & ->).
    { destruct (bool_decide_reflect (Spanish ∈ langs)) as [Hin|].
      - pose proof (generate_audio_within Spanish None m langs Hin) as Hw.
        destruct (generate_audio Spanish None m) as [fsp m1]. by eexists _, _.
      - eexists _, _. split; [apply within_refl|done]. }
    destruct (bool_decide_reflect (Tagalog ∈ langs)) as [Hin|]; [|done].
    pose proof (generate_audio_within Tagalog None m1 langs Hin) as Hw.
    destruct (generate_audio Tagalog None m1) as [ft m2]. cbn [snd] in *.
    by eapply within_trans.
Qed.

End Filter.

Section Main.
Context `{Platform}.

Lemma init_effects dir w :
  calls (snd (__init__ dir w)) = calls w
  /\ (forall p, p <> Path_str (Path_of_str dir) -> fs (snd (__init__ dir w)) !! p = fs w !! p)
  /\ (forall g, fst (__init__ dir w) = inr g -> output_dir g = Path_of_str dir).
Proof.
  unfold __init__. rewrite Path_mkdir_exist_ok_spec.
  destruct (fs w !! Path_str (Path_of_str dir)) as [[|d]|]; [|done|].
  - destruct (TTS model_name _) as [e|h]; cbn; repeat split; try done.
    by intros g [= <-].
  - destruct (mkdir_refused _ w) as [e|]; [done|].
    destruct (TTS model_name _) as [e|h]; cbn; repeat split; try done.
    all: try (intros p Hp; by rewrite lookup_insert_ne).
    by intros g [= <-].
Qed.

Lemma load_texts_effects file_path w :
  fs (snd (load_texts_from_file file_path w)) = fs w
  /\ calls (snd (load_texts_from_file file_path w)) = calls w.
Proof.
  unfold load_texts_from_file, load_texts_try. by destruct (open_read file_path w).
Qed.

Lemma choose_texts_effects file texts w :
  fs (snd (choose_texts file texts w)) = fs w
  /\ calls (snd (choose_texts file texts w)) = calls w.
Proof.
  unfold choose_texts. destruct file as [[|c f]|]; try done.
  pose proof (load_texts_effects (c :: f) w) as He.
  by destruct (load_texts_from_file (c :: f) w).
Qed.

Lemma print_effects line w :
  fs (snd (print line w)) = fs w /\ calls (snd (print line w)) = calls w.
Proof. unfold print. by destruct (print_refused line w). Qed.

Lemma and_then_effects {A} step (k : World -> (Exn + A) * World) w :
  (forall w0, fs (snd (step w0)) = fs w0 /\ calls (snd (step w0)) = calls w0) ->
  (forall w0, fs (snd (k w0)) = fs w0 /\ calls (snd (k w0)) = calls w0) ->
  fs (snd (and_then step k w)) = fs w /\ calls (snd (and_then step k w)) = calls w.
Proof.
  intros Hstep Hk. unfold and_then. specialize (Hstep w).
  destruct (step w) as [[e|] w1]; cbn [snd] in *; [done|].
  destruct (Hk w1) as [-> ->]. done.
Qed.

Lemma print_files_effects files total w :
  fs (snd (print_files files total w)) = fs w
  /\ calls (snd (print_files files total w)) = calls w.
Proof.
  revert total w. induction files as [|f files IH]; intros total w; [done|].
  cbn [print_files]. apply and_then_effects; [apply print_effects|apply IH].
Qed.

Lemma print_languages_effects results total w :
  fs (snd (print_languages results total w)) = fs w
  /\ calls (snd (print_languages results total w)) = calls w.
Proof.
  revert total w. induction results as [|[language files] results IH]; intros total w; [done|].
  cbn [print_languages]. apply and_then_effects; [apply print_effects|].
  intros w0. pose proof (print_files_effects files total w0) as Hf.
  destruct (print_files files total w0) as [[e|t] w1]; cbn [snd] in *; [done|].
  destruct (IH t w1) as [-> ->]. done.
Qed.

Lemma print_results_effects results g w :
  fs (snd (print_results results g w)) = fs w
  /\ calls (snd (print_results results g w)) = calls w.
Proof.
  unfold print_results.
  apply and_then_effects; [apply print_effects|intros w1].
  apply and_then_effects; [apply print_effects|intros w2].
  apply and_then_effects; [apply print_effects|intros w3].
  pose proof (print_languages_effects results 0 w3) as Hl.
  destruct (print_languages results 0 w3) as [[e|t] w4]; cbn [snd] in *; [done|].
  destruct Hl as [<- <-].
  apply and_then_effects; [apply print_effects|intros w5].
  apply and_then_effects; [apply print_effects|intros w6]. done.
Qed.

Lemma speaker_inj l1 l2 : speaker l1 = speaker l2 -> l1 = l2.
Proof. by destruct l1, l2. Qed.

(** C7.  Of a run of [main] with a language filter: every synthesis
    request it makes uses the voice of a selected language and writes to a
    file of that language in the output directory, whose name is that
    language's; apart from the output directory itself and those files the
    file system is untouched; in particular every file of a language that
    is not selected is exactly as it was, with default and with custom
    texts alike. *)
Theorem language_filter args w :
  let dir := Path_of_str (output args) in
  let w' := snd (main args w) in
  (exists new, calls w' = calls w ++ new
               /\ Forall (for_selected (languages args) dir) new)
  /\ (forall c, for_selected (languages args) dir c ->
                exists l i, l ∈ languages args
                            /\ call_speaker c = speaker l
                            /\ name_of (call_file_path c) = filename_of l i)
  /\ (forall p, p <> Path_str dir ->
                (forall l i, l ∈ languages args -> p <> out_path dir l i) ->
                fs w' !! p = fs w !! p)
  /\ (forall l i, l ∉ languages args ->
                  fs w' !! out_path dir l i = fs w !! out_path dir l i
                  /\ Forall (fun c => call_speaker c <> speaker l
                                      /\ call_file_path c <> out_path dir l i)
                            (drop (length (calls w)) (calls w'))).
Proof.
  intros dir w'.
  assert ((exists new, calls w' = calls w ++ new
                       /\ Forall (for_selected (languages args) dir) new)
          /\ (forall p, p <> Path_str dir ->
                        (forall l i, l ∈ languages args -> p <> out_path dir l i) ->
                        fs w' !! p = fs w !! p)) as [Hcalls Hframe].
  { subst w'. unfold main.
    destruct (init_effects (output args) w) as (Hc0 & Hf0 & Hg0).
    destruct (__init__ (output args) w) as [[e|g] w1]; cbn [fst snd] in *.
    { split; [|by intros p Hp _; apply Hf0].
      exists []. rewrite app_nil_r. split; [by rewrite <- Hc0|constructor]. }
    specialize (Hg0 g eq_refl).
    destruct (choose_texts_effects (spanish_file args) (spanish_texts args) w1)
      as [Hf1 Hc1].
    destruct (choose_texts (spanish_file args) (spanish_texts args) w1) as [sp w2].
    destruct (choose_texts_effects (tagalog_file args) (tagalog_texts args) w2)
      as [Hf2 Hc2].
    destruct (choose_texts (tagalog_file args) (tagalog_texts args) w2) as [tg w3].
    cbn [snd] in *.
    pose proof (generate_selected_within (languages args) sp tg
                  {| self := g; world := w3 |}) as (Hself & (new & Hc3 & Hnew) & Hf3).
    destruct (generate_selected (languages args) sp tg {| self := g; world := w3 |})
      as [results m']. cbn [snd self world] in *.
    destruct (print_results_effects results (self m') (world m')) as [Hf4' Hc4'].
    assert (fs (snd (match print_results results (self m') (world m') with
                     | (inl e, w') =>
                       (1, logger_error (py "Audio generation failed: " ++ exn_str e) w')
                     | (inr _, w') => (0, w')
                     end)) = fs (world m')
            /\ calls (snd (match print_results results (self m') (world m') with
                           | (inl e, w') =>
                             (1, logger_error (py "Audio generation failed: " ++ exn_str e) w')
                           | (inr _, w') => (0, w')
                           end)) = calls (world m')) as [Hf4 Hc4]
        by (by destruct (print_results results (self m') (world m')) as [[e|t] w4]).
    rewrite Hg0 in *. fold dir in Hnew, Hf3. split.
    - exists new. split; [|done]. rewrite Hc4, Hc3. congruence.
    - intros p Hp1 Hp2. rewrite Hf4, Hf3 by done. rewrite Hf2, Hf1. by apply Hf0. }
  split; [done|]. split; [|split; [done|]].
  - intros c (l & i & Hl & Hs & Hp). exists l, i. repeat split; [done..|].
    rewrite Hp. apply name_of_out_path.
  - intros l i Hl. split.
    + apply Hframe; [apply out_path_not_dir|].
      intros l2 i2 Hl2 E. apply out_path_inj in E as [-> _]. done.
    + destruct Hcalls as (new & -> & Hnew). rewrite drop_app_length.
      eapply Forall_impl; [exact Hnew|].
      intros c (l2 & i2 & Hl2 & Hs & Hp). split.
      * rewrite Hs. intros E%speaker_inj. by subst.
      * rewrite Hp. intros [E _]%out_path_inj. by subst.
Qed.

End Main.

Lemma language_filter_witness :
  fs (snd (@main (FakePlatform true false []) tagalog_only_args empty_world))
    !! py "out/spanish_q001.wav" = None
  /\ is_Some (fs (snd (@main (FakePlatform true false []) tagalog_only_args empty_world))
                !! py "out/tagalog_q001.wav").
Proof.
  destruct (@language_filter (FakePlatform true false []) tagalog_only_args empty_world)
    as (_ & _ & _ & Hno).
  assert (Spanish ∉ languages tagalog_only_args) as Hsel.
  { intros Hin. apply list_elem_of_singleton in Hin. discriminate Hin. }
  destruct (Hno Spanish 1%nat Hsel) as [Hfs _]. split.
  - etransitivity; [exact Hfs|reflexivity].
  - vm_compute. by eexists.
Defined.


Lemma omitted_language_is_skipped_witness :
  let '(res, m') := generate_custom_audio None (Some [py "kumusta"]) (fake_machine []) in
  res = [(py "spanish", []); (py "tagalog", [py "out/tagalog_q001.wav"])]
  /\ calls (world m')
     = [{| call_text := py "kumusta"; call_speaker := py "en";
           call_file_path := py "out/tagalog_q001.wav" |}].
Proof.
  destruct (@omitted_language_is_skipped (FakePlatform true false [])
              (Some [py "kumusta"]) (fake_machine [])) as (Hw & _ & _).
  destruct (generate_custom_audio None (Some [py "kumusta"]) (fake_machine []))
    as [res m'] eqn:E.
  destruct Hw as (rt & Hres & Hc & _). split.
  - apply (f_equal fst) in E. cbn [fst] in E. rewrite <- E. vm_compute. reflexivity.
  - rewrite Hc. vm_compute. reflexivity.
Defined.

(** * Further properties of the script *)

(** ** Any pattern of failures *)

Lemma successes_failures i outs :
  (length (successes i outs) + failures outs = length outs)%nat.
Proof.
  unfold failures. revert i. induction outs as [|[e|] outs IH]; intros i; [done|..].
  - rewrite filter_cons_True by by eexists. cbn [successes length]. specialize (IH (S i)). lia.
  - rewrite filter_cons_False by by intros [? ?]. cbn [successes length].
    specialize (IH (S i)). lia.
Qed.

Lemma successes_none i outs : Forall is_Some outs -> successes i outs = [].
Proof.
  intros Hall. revert i. induction Hall as [|o outs [e ->] _ IH]; intros i; [done|].
  cbn [successes]. apply IH.
Qed.

(** X1.  Whatever requests raise during a generate call: every item of the
    effective list is requested exactly once, in order, with its text, the
    voice of the language and the path of its position; the result is the
    paths of exactly the items whose request returned, in order; results
    and failures add up to the number of items; and when every request
    raises the result is the empty list. *)
Theorem generate_returns_successes `{Platform} l custom m :
  let qs := effective_questions l custom (self m) in
  let outs := generate_outcomes l custom m in
  let '(r, m') := generate_audio l custom m in
  length outs = length qs
  /\ calls (world m') = calls (world m) ++ requests (self m) l qs
  /\ r = filepath_of (self m) l <$> successes 1 outs
  /\ (length r + failures outs = length qs)%nat
  /\ (Forall is_Some outs -> r = []).
Proof.
  intros qs outs.
  pose proof (generate_audio_spec l custom m) as Hs. cbv zeta in Hs. fold qs outs in Hs.
  destruct (generate_audio l custom m) as [r m'].
  destruct Hs as (_ & Hlen & Hr & Hc & _).
  repeat split; try done.
  - rewrite Hr, length_fmap, <- Hlen. apply successes_failures.
  - intros Hall. by rewrite Hr, successes_none.
Qed.

Lemma item_records_errors `{Platform} l i outs :
  length (filter (fun r => level r = ERROR)
            (zip_with (item_record l) (seq i (length outs)) outs))
  = failures outs.
Proof.
  unfold failures. revert i.
  induction outs as [|[e|] outs IH]; intros i; [done|..]; cbn [length seq zip_with].
  - rewrite !filter_cons_True by (done || by eexists). cbn [length]. by rewrite IH.
  - rewrite !filter_cons_False by (done || by intros [? ?]). apply IH.
Qed.

(** X2.  A generate call logs one INFO record announcing the number of
    items, then one record per item in order: INFO with the file name when
    the request returned, ERROR with the language, the position and the
    text of the exception when it raised.  The ERROR records are as many
    as the items missing from the result, and nothing is printed. *)
Theorem generate_log `{Platform} l custom m :
  let qs := effective_questions l custom (self m) in
  let outs := generate_outcomes l custom m in
  let '(r, m') := generate_audio l custom m in
  log (world m')
  = log (world m)
    ++ {| level := INFO; message := generating_msg l qs |}
       :: zip_with (item_record l) (seq 1 (length qs)) outs
  /\ length (log (world m')) = (length (log (world m)) + 1 + length qs)%nat
  /\ length (filter (fun r => level r = ERROR)
               (drop (length (log (world m))) (log (world m'))))
     = (length qs - length r)%nat
  /\ stdout (world m') = stdout (world m).
Proof.
  intros qs outs.
  pose proof (generate_audio_spec l custom m) as Hs. cbv zeta in Hs. fold qs outs in Hs.
  destruct (generate_audio l custom m) as [r m'].
  destruct Hs as (_ & Hlen & Hr & _ & Hl & Ho & _).
  repeat split; try done.
  - rewrite Hl, length_app, length_cons, length_zip_with, length_seq. lia.
  - rewrite Hl, drop_app_length, filter_cons_False by done.
    rewrite <- Hlen, item_records_errors, Hr, length_fmap.
    pose proof (successes_failures 1 outs). lia.
Qed.

Lemma generate_returns_successes_witness :
  let '(r, m') := generate_tagalog_audio (Some [py "isa"; py "dalawa"])
                    (fake_machine [py "isa"; py "dalawa"]) in
  r = [] /\ length (calls (world m')) = 2%nat.
Proof.
  unfold generate_tagalog_audio.
  pose proof (@generate_returns_successes (FakePlatform true false [py "isa"; py "dalawa"])
                Tagalog (Some [py "isa"; py "dalawa"])
                (fake_machine [py "isa"; py "dalawa"])) as Hw.
  cbv zeta in Hw.
  destruct (generate_audio Tagalog (Some [py "isa"; py "dalawa"])
              (fake_machine [py "isa"; py "dalawa"])) as [r m'].
  destruct Hw as (_ & Hc & _ & _ & Hall). split.
  - apply Hall. vm_compute. repeat constructor; by eexists.
  - rewrite Hc. reflexivity.
Defined.

(** ** generate_all_audio and generate_custom_audio *)

Lemma results_NoDup `{Platform} g l i outs :
  NoDup (filepath_of g l <$> successes i outs).
Proof.
  apply NoDup_fmap_2_strong.
  - intros a b _ _ E. by apply out_path_inj in E as [_ ?].
  - eapply sublist_NoDup; [apply NoDup_seq|apply successes_sublist].
Qed.

(** X3.  [generate_all_audio] requests the object's Spanish questions and
    then its Tagalog questions, each in order; its result has the keys
    [spanish] and [tagalog] in that order; no path occurs twice in the two
    lists together; neither list is longer than its questions; and the
    last record logged reports the sum of the two lengths. *)
Theorem generate_all_audio_requests `{Platform} m :
  let g := self m in
  let '(res, m') := generate_all_audio m in
  exists rs rt,
    res = [(py "spanish", rs); (py "tagalog", rt)]
    /\ calls (world m')
        = calls (world m) ++ requests g Spanish (spanish_questions g)
          ++ requests g Tagalog (tagalog_questions g)
    /\ NoDup (rs ++ rt)
    /\ (length rs <= length (spanish_questions g))%nat
    /\ (length rt <= length (tagalog_questions g))%nat
    /\ last (log (world m'))
        = Some {| level := INFO;
                  message := py "‚úÖ Audio generation completed! Generated "
                             ++ str_int (len rs + len rt) ++ py " files total." |}.
Proof.
  intros g. unfold generate_all_audio, generate_spanish_audio, generate_tagalog_audio.
  set (m0 := on_world _ m).
  pose proof (generate_audio_spec Spanish None m0) as Hs. cbv zeta in Hs.
  destruct (generate_audio Spanish None m0) as [rs m1].
  destruct Hs as (Hself1 & Hlen1 & Hr1 & Hc1 & _).
  pose proof (generate_audio_spec Tagalog None m1) as Ht. cbv zeta in Ht.
  destruct (generate_audio Tagalog None m1) as [rt m2].
  destruct Ht as (Hself2 & Hlen2 & Hr2 & Hc2 & _).
  rewrite Hself1 in *. subst m0. cbn [self world on_world] in *. fold g in Hr1, Hr2, Hc1, Hc2.
  exists rs, rt. split; [done|]. split; [|split; [|split; [|split]]].
  - cbn. rewrite Hc2, Hc1, <- app_assoc. done.
  - apply NoDup_app. split; [|split].
    + rewrite Hr1. apply results_NoDup.
    + intros p Hp1 Hp2. rewrite Hr1 in Hp1. rewrite Hr2 in Hp2.
      apply list_elem_of_fmap in Hp1 as (i & -> & _).
      apply list_elem_of_fmap in Hp2 as (j & E & _).
      by apply out_path_inj in E as [? _].
    + rewrite Hr2. apply results_NoDup.
  - rewrite Hr1, length_fmap.
    match goal with
    | |- (length (successes 1 ?o) <= _)%nat => pose proof (successes_failures 1 o)
    end. cbn [questions_of effective_questions] in Hlen1. subst g. lia.
  - rewrite Hr2, length_fmap.
    match goal with
    | |- (length (successes 1 ?o) <= _)%nat => pose proof (successes_failures 1 o)
    end. cbn [questions_of effective_questions] in Hlen2. subst g. lia.
  - cbn. apply last_snoc.
Qed.

(** X4.  [generate_custom_audio] requests the supplied Spanish texts and
    then the supplied Tagalog texts, each in order and nothing else; its
    result has the keys [spanish] and [tagalog] in that order; and a
    language given the empty list is left out like one given no list: its
    entry is empty and the default questions are not used. *)
Theorem generate_custom_audio_requests `{Platform} sp tg m :
  let g := self m in
  let '(res, m') := generate_custom_audio sp tg m in
  exists rs rt,
    res = [(py "spanish", rs); (py "tagalog", rt)]
    /\ calls (world m')
        = calls (world m) ++ requests g Spanish (default [] sp)
          ++ requests g Tagalog (default [] tg)
    /\ (sp = Some [] -> rs = [])
    /\ (tg = Some [] -> rt = [])
    /\ (sp = Some [] -> tg = Some [] -> m' = m).
Proof.
  intros g. pose proof (generate_custom_audio_spec sp tg m) as Hs.
  destruct (generate_custom_audio sp tg m) as [res m'] eqn:E.
  destruct Hs as (rs & rt & Hres & _ & Hrs & Hrt & _ & _ & Hc & _).
  exists rs, rt. repeat split; try done.
  - intros ->. by apply Hrs.
  - intros ->. by apply Hrt.
  - intros -> ->. cbn in E. by injection E as _ <-.
Qed.

Lemma generate_custom_audio_requests_witness :
  let '(res, m') := generate_custom_audio (Some []) (Some [py "kumusta"]) (fake_machine []) in
  res = [(py "spanish", []); (py "tagalog", [py "out/tagalog_q001.wav"])]
  /\ length (calls (world m')) = 1%nat.
Proof.
  pose proof (@generate_custom_audio_requests (FakePlatform true false [])
                (Some []) (Some [py "kumusta"]) (fake_machine [])) as Hw.
  cbv zeta in Hw.
  destruct (generate_custom_audio (Some []) (Some [py "kumusta"]) (fake_machine []))
    as [res m'] eqn:E.
  destruct Hw as (rs & rt & Hres & Hc & Hrs & _). split.
  - apply (f_equal fst) in E. cbn [fst] in E. rewrite <- E. vm_compute. reflexivity.
  - rewrite Hc. reflexivity.
Defined.

(** ** What load_texts_from_file delivers *)

Lemma translate_newlines_id s : Forall (fun c => c <> 13) s -> translate_newlines s = s.
Proof.
  induction 1 as [|c r Hc _ IH]; [done|]. cbn [translate_newlines].
  destruct (N.eqb_spec c 13); [done|]. by rewrite IH.
Qed.

Lemma translate_newlines_no_cr s : Forall (fun c => c <> 13) (translate_newlines s).
Proof.
  assert (forall n s, (length s <= n)%nat -> Forall (fun c => c <> 13) (translate_newlines s))
    as Hn.
  { clear s. induction n as [|n IH]; intros [|c r] Hlen; try (by constructor);
      [simpl in Hlen; lia|].
    cbn [translate_newlines]. simpl in Hlen.
    destruct (N.eqb_spec c 13) as [->|Hc].
    - constructor; [done|]. destruct r as [|d r']; [constructor|].
      destruct (d =? 10); apply IH; simpl in *; lia.
    - constructor; [done|]. apply IH. lia. }
  by apply (Hn (length s)).
Qed.

Lemma split_Forall (P : N -> Prop) sep s : Forall P s -> Forall (Forall P) (split sep s).
Proof.
  induction 1 as [|c r Hc _ IH]; cbn [split]; [by repeat constructor|].
  destruct (c =? sep); [by constructor|].
  pose proof (split_nonempty sep r). destruct (split sep r) as [|x xs]; [done|].
  inversion IH; subst. by repeat constructor.
Qed.

Lemma split_join sep texts :
  texts <> [] -> Forall (Forall (fun c => c <> sep)) texts ->
  split sep (join [sep] texts) = texts.
Proof.
  intros Hne Hall. induction Hall as [|x rest Hx Hrest IH]; [done|].
  destruct rest as [|y rest].
  - by apply split_no_sep.
  - rewrite join_cons. cbn [app]. rewrite split_app_sep, IH by done.
    by rewrite split_no_sep.
Qed.

Lemma lstrip_id t : (forall c, head t = Some c -> isspace c = false) -> lstrip t = t.
Proof. destruct t as [|c r]; [done|]. intros Hh. cbn [lstrip]. by rewrite (Hh c). Qed.

Lemma strip_id t :
  (forall c, head t = Some c -> isspace c = false) ->
  (forall c, last t = Some c -> isspace c = false) -> strip t = t.
Proof.
  intros Hh Hl. unfold strip, rstrip. rewrite (lstrip_id t Hh), lstrip_id.
  - apply rev_involutive.
  - intros c Hc. apply Hl. rewrite <- Hc, rev_alt. symmetry. apply head_reverse.
Qed.

Lemma strip_clean line :
  ~ blank line -> Forall (fun c => c <> 10 /\ c <> 13) line -> clean_text (strip line).
Proof.
  intros Hnb Hone. repeat split.
  - by rewrite strip_blank.
  - apply strip_head.
  - apply strip_last.
  - destruct (strip_decomp line) as (a & b & E & _). rewrite E in Hone.
    by apply Forall_app in Hone as [_ [? _]%Forall_app].
Qed.

Lemma clean_not_blank t : clean_text t -> ~ blank t.
Proof.
  intros (Hne & Hh & _) Hb. destruct t as [|c r]; [done|].
  inversion Hb as [|? ? Hc _]; subst. rewrite (Hh c eq_refl) in Hc. discriminate.
Qed.

Lemma load_lines_clean texts blanks :
  Forall clean_text texts -> Forall blank blanks ->
  strip <$> filter (fun line => ~ blank line) (texts ++ blanks) = texts.
Proof.
  intros Ht Hb. rewrite filter_app.
  replace (filter (fun line => ~ blank line) blanks) with (@nil pystr).
  - rewrite app_nil_r. induction Ht as [|t texts Hc _ IH]; [done|].
    rewrite filter_cons_True by by apply clean_not_blank.
    rewrite fmap_cons, IH. f_equal. destruct Hc as (_ & Hh & Hl & _). by apply strip_id.
  - induction Hb as [|b blanks Hbl _ IH]; [done|].
    rewrite filter_cons_False; [done|]. by intros Hn.
Qed.

(** X5.  Round trip.  When the file holds clean texts (not empty, no white
    space at either end, no line break inside) joined by newlines, with or
    without a newline after the last, [load_texts_from_file] returns
    exactly those texts. *)
Theorem load_texts_round_trip `{Platform} file_path w data texts (final_newline : bool) :
  open_refused file_path w = None ->
  fs w !! file_path = Some (File data) ->
  utf8_decode data = Some (join [10] texts ++ (if final_newline then [10] else [])) ->
  Forall clean_text texts ->
  fst (load_texts_from_file file_path w) = texts.
Proof.
  intros Hopen Hfile Hdec Hclean.
  assert (Forall (Forall (fun c => c <> 10)) texts) as Hnl.
  { eapply Forall_impl; [exact Hclean|]. intros t (_ & _ & _ & Hone).
    eapply Forall_impl; [exact Hone|]. by intros c [? _]. }
  assert (Forall (fun c => c <> 13) (join [10] texts)) as Hcr.
  { clear -Hclean. induction Hclean as [|t rest (_ & _ & _ & Hone) Hrest IH]; [constructor|].
    assert (Forall (fun c => c <> 13) t) as Ht
        by (eapply Forall_impl; [exact Hone|]; by intros c [_ ?]).
    destruct rest as [|y rest]; [done|]. rewrite join_cons.
    apply Forall_app. split; [done|]. by constructor. }
  assert (open_read file_path w
          = inr (join [10] texts ++ (if final_newline then [10] else []))) as Hread.
  { unfold open_read. rewrite Hopen, Hfile, Hdec. f_equal. apply translate_newlines_id.
    apply Forall_app. split; [done|]. destruct final_newline; by repeat constructor. }
  rewrite (load_texts_of_content _ _ _ Hread).
  assert (exists blanks, Forall blank blanks
                         /\ split 10 (join [10] texts ++ (if final_newline then [10] else []))
                            = texts ++ blanks) as (blanks & Hb & ->).
  { destruct texts as [|t rest].
    - destruct final_newline.
      + exists [[]; []]. split; [by repeat constructor|done].
      + exists [[]]. split; [by repeat constructor|done].
    - destruct final_newline.
      + exists [[]]. split; [by repeat constructor|].
        rewrite split_app_sep, split_join by done. done.
      + exists []. split; [constructor|]. by rewrite !app_nil_r, split_join. }
  by apply load_lines_clean.
Qed.

Lemma load_texts_round_trip_witness :
  fst (@load_texts_from_file (FakePlatform true false []) (py "preguntas.txt")
         (world_with_file (py "preguntas.txt")
            [x68; x6f; x6c; x61; x0a; x71; x75; x65; x20; x74; x61; x6c; x0a]))
  = [py "hola"; py "que tal"].
Proof.
  apply (@load_texts_round_trip (FakePlatform true false []) (py "preguntas.txt")
           (world_with_file (py "preguntas.txt")
              [x68; x6f; x6c; x61; x0a; x71; x75; x65; x20; x74; x61; x6c; x0a])
           [x68; x6f; x6c; x61; x0a; x71; x75; x65; x20; x74; x61; x6c; x0a]
           [py "hola"; py "que tal"] true).
  - reflexivity.
  - vm_compute. reflexivity.
  - vm_compute. reflexivity.
  - constructor; [|constructor; [|constructor]].
    all: split; [discriminate|].
    all: split; [intros c Hc; vm_compute in Hc; injection Hc as <-; reflexivity|].
    all: split; [intros c Hc; vm_compute in Hc; injection Hc as <-; reflexivity|].
    all: vm_compute (py _).
    all: repeat (constructor; [split; discriminate|]); constructor.
Defined.

Lemma open_read_no_cr `{Platform} file_path w content :
  open_read file_path w = inr content -> Forall (fun c => c <> 13) content.
Proof.
  unfold open_read. destruct (open_refused file_path w); [done|].
  destruct (fs w !! file_path) as [[|data]|]; try done.
  destruct (utf8_decode data); [|done]. intros [= <-]. apply translate_newlines_no_cr.
Qed.

Lemma lines_one_line content :
  Forall (fun c => c <> 13) content ->
  Forall (Forall (fun c => c <> 10 /\ c <> 13)) (split 10 content).
Proof.
  intros Hcr. pose proof (split_pieces 10 content) as H10.
  pose proof (split_Forall _ 10 content Hcr) as H13.
  revert H13. induction H10 as [|x xs Hx _ IH]; intros H13; [constructor|].
  inversion H13 as [|? ? Hx' Hxs']; subst. constructor; [|by apply IH].
  clear -Hx Hx'. induction Hx as [|c r Hc _ IH]; [constructor|].
  inversion Hx'; subst. constructor; [done|by apply IH].
Qed.

(** X6.  [load_texts_from_file] only reads: the file system, the history
    of synthesis requests and the standard output are as before, and
    exactly one record is logged.  When the file could be read the record
    is INFO and states the number of texts returned, which are clean
    (not empty, no white space at either end, no line break inside) and
    no more than the lines of the file; otherwise the record is ERROR with
    the text of the exception and the result is empty. *)
Theorem load_texts_shape `{Platform} file_path w :
  let '(texts, w') := load_texts_from_file file_path w in
  Forall clean_text texts
  /\ fs w' = fs w /\ calls w' = calls w /\ stdout w' = stdout w
  /\ ((exists content,
          open_read file_path w = inr content
          /\ (length texts <= length (split 10 content))%nat
          /\ log w' = log w ++ [{| level := INFO;
                                    message := py "Loaded " ++ str_int (len texts)
                                               ++ py " texts from " ++ file_path |}])
      \/ (exists e,
             open_read file_path w = inl e /\ texts = []
             /\ log w' = log w ++ [{| level := ERROR;
                                       message := py "Error loading texts from file: "
                                                  ++ exn_str e |}])).
Proof.
  unfold load_texts_from_file, load_texts_try.
  destruct (open_read file_path w) as [e|content] eqn:E.
  - split; [constructor|]. do 3 (split; [done|]). right. by exists e.
  - split; [|do 3 (split; [done|])].
    + apply Forall_fmap, Forall_forall. intros line Hline.
      apply list_elem_of_filter in Hline as [Hnb Hin]. cbn. apply strip_clean.
      * by rewrite <- strip_blank.
      * pose proof (lines_one_line content (open_read_no_cr _ _ _ E)) as Hall.
        rewrite Forall_forall in Hall. by apply Hall.
    + left. exists content. split; [done|]. split; [|done].
      rewrite length_fmap. apply length_filter.
Qed.

(** ** The report *)

Lemma add_stdout_nil w : add_stdout [] w = w.
Proof. unfold add_stdout. rewrite app_nil_r. by destruct w. Qed.

Lemma add_stdout_app l1 l2 w : add_stdout l2 (add_stdout l1 w) = add_stdout (l1 ++ l2) w.
Proof. unfold add_stdout. cbn. by rewrite app_assoc. Qed.

Lemma total_of_cons entry results :
  total_of (entry :: results) = len (snd entry) + total_of results.
Proof. unfold total_of, len. cbn [fmap list_fmap concat]. rewrite length_app. lia. Qed.

Lemma report_body results :
  length (concat (language_lines <$> results))
  = (length results + N.to_nat (total_of results))%nat.
Proof.
  induction results as [|entry results IH]; [done|].
  rewrite total_of_cons. cbn [fmap list_fmap concat length].
  rewrite length_app, IH. unfold language_lines, len. cbn [length].
  rewrite length_fmap. lia.
Qed.

Section Report.
Context `{Platform}.

Lemma print_cases line w :
  (exists e, print line w = (Some e, w)) \/ print line w = (None, add_stdout [line] w).
Proof. unfold print. destruct (print_refused line w) as [e|]; [left; by exists e|by right]. Qed.

Lemma print_all_app l1 l2 w :
  print_all (l1 ++ l2) w
  = match print_all l1 w with
    | (Some e, w') => (Some e, w')
    | (None, w') => print_all l2 w'
    end.
Proof.
  revert w. induction l1 as [|line l1 IH]; intros w; [done|].
  cbn [app print_all]. destruct (print line w) as [[e|] w']; [done|]. apply IH.
Qed.

(** What [print_all] leaves: the lines before the first refused one. *)
Lemma print_all_spec lines w :
  exists printed,
    printed `prefix_of` lines
    /\ snd (print_all lines w) = add_stdout printed w
    /\ (printed = lines <-> fst (print_all lines w) = None).
Proof.
  revert w. induction lines as [|line lines IH]; intros w.
  - exists []. split; [done|]. split; [by rewrite add_stdout_nil|done].
  - cbn [print_all]. destruct (print_cases line w) as [[e ->]| ->].
    + exists []. split; [apply prefix_nil|]. split; [by rewrite add_stdout_nil|done].
    + destruct (IH (add_stdout [line] w)) as (printed & Hpre & Hw & Hall).
      exists (line :: printed). split; [by apply prefix_cons|].
      split; [by rewrite Hw, add_stdout_app|].
      rewrite <- Hall. split; [by intros [= ->]|by intros ->].
Qed.


Lemma print_files_all files total_files w :
  print_files files total_files w
  = match print_all ((fun file => py "  ‚úÖ " ++ name_of file) <$> files) w with
    | (Some e, w') => (inl e, w')
    | (None, w') => (inr (total_files + len files), w')
    end.
Proof.
  revert total_files w. induction files as [|file files IH]; intros total_files w.
  - cbn. by rewrite N.add_0_r.
  - cbn [print_files fmap list_fmap print_all]. unfold and_then.
    change (Path_name (Path_of_str file)) with (name_of file).
    destruct (print _ w) as [[e|] w']; [done|]. rewrite IH.
    destruct (print_all _ w') as [[e|] w'']; [done|].
    do 2 f_equal. unfold len. cbn [length]. lia.
Qed.

Lemma print_languages_all results total_files w :
  print_languages results total_files w
  = match print_all (concat (language_lines <$> results)) w with
    | (Some e, w') => (inl e, w')
    | (None, w') => (inr (total_files + total_of results), w')
    end.
Proof.
  revert total_files w.
  induction results as [|[language files] results IH]; intros total_files w.
  - cbn. by rewrite N.add_0_r.
  - cbn [print_languages fmap list_fmap concat]. unfold language_lines at 1.
    cbn [fst snd app print_all]. unfold and_then.
    destruct (print _ w) as [[e|] w1]; [done|].
    rewrite print_files_all, print_all_app.
    destruct (print_all _ w1) as [[e|] w2]; [done|]. rewrite IH.
    destruct (print_all _ w2) as [[e|] w3]; [done|].
    rewrite total_of_cons. cbn [snd]. do 2 f_equal. lia.
Qed.

(** [print_results] prints the lines of the report, one after the other. *)
Lemma print_results_all results g w :
  print_results results g w
  = match print_all (report_lines results g) w with
    | (Some e, w') => (inl e, w')
    | (None, w') => (inr (total_of results), w')
    end.
Proof.
  unfold print_results, report_lines. cbn [app print_all]. unfold and_then.
  destruct (print _ w) as [[e|] w1]; [done|].
  destruct (print _ w1) as [[e|] w2]; [done|].
  destruct (print _ w2) as [[e|] w3]; [done|].
  rewrite print_languages_all, print_all_app.
  destruct (print_all _ w3) as [[e|] w4]; [done|].
  cbn [print_all]. rewrite N.add_0_l.
  destruct (print _ w4) as [[e|] w5]; [done|].
  by destruct (print _ w5) as [[e|] w6].
Qed.

End Report.

(** X7.  The report: [print_results] prints, one line per [print] and in
    this order, the three heading lines, then for every entry of the
    results a heading with the upper-case key and the number of files
    followed by one line per file showing the file's name without its
    directory, then the output directory and the total.  A [print] that
    raises ends the report there and its exception is passed on: what is
    printed is always a beginning of the report, and all of it exactly when
    [print_results] returns.  The total, counted one by one with the file
    lines, is the number of file lines of the report.  Nothing but the
    standard output changes. *)
Theorem print_results_report `{Platform} results g w :
  print_results results g w
  = match print_all (report_lines results g) w with
    | (Some e, w') => (inl e, w')
    | (None, w') => (inr (total_of results), w')
    end
  /\ (exists printed,
        printed `prefix_of` report_lines results g
        /\ snd (print_results results g w) = add_stdout printed w
        /\ (printed = report_lines results g
            <-> fst (print_results results g w) = inr (total_of results))
        /\ (printed <> report_lines results g
            <-> exists e, fst (print_results results g w) = inl e))
  /\ length (report_lines results g)
     = (5 + length results + N.to_nat (total_of results))%nat.
Proof.
  split; [apply print_results_all|]. split.
  - rewrite print_results_all.
    destruct (print_all_spec (report_lines results g) w) as (printed & Hpre & Hw & Hall).
    exists printed. split; [done|].
    destruct (print_all (report_lines results g) w) as [[e|] w']; cbn [fst snd] in *.
    + split; [done|]. split.
      * split; [|done]. intros E. by apply Hall in E.
      * split; [by exists e|]. intros _ E. by apply Hall in E.
    + split; [done|]. split.
      * split; [done|]. intros _. by apply Hall.
      * split; [|by intros [e ?]]. intros Hne. destruct Hne. by apply Hall.
  - unfold report_lines. rewrite !length_app, report_body. cbn [length]. lia.
Qed.

Lemma print_results_report_witness :
  fst (@print_results (FakePlatform true false []) one_file_results (fake_generator [])
         empty_world) = inr 1
  /\ stdout (snd (@print_results (FakePlatform true false []) one_file_results
                    (fake_generator []) empty_world))
     = report_lines one_file_results (fake_generator [])
  /\ length (report_lines one_file_results (fake_generator [])) = 8%nat
  /\ @print_results AsciiConsole one_file_results ascii_generator empty_world
     = (inl (Exception (py "ascii codec cannot encode characters")),
        add_stdout (take 4 (report_lines one_file_results ascii_generator)) empty_world).
Proof.
  destruct (@print_results_report (FakePlatform true false []) one_file_results
              (fake_generator []) empty_world) as (E1 & _ & Hlen).
  destruct (@print_results_report AsciiConsole one_file_results ascii_generator
              empty_world) as (E2 & _ & _).
  split; [rewrite E1; vm_compute; reflexivity|].
  split; [rewrite E1; vm_compute; reflexivity|].
  split; [rewrite Hlen; reflexivity|].
  rewrite E2. vm_compute. reflexivity.
Defined.

(** ** Which texts main has synthesized *)

Section Selection.
Context `{Platform}.

Lemma generate_audio_calls l custom m :
  self (snd (generate_audio l custom m)) = self m
  /\ calls (world (snd (generate_audio l custom m)))
     = calls (world m) ++ requests (self m) l (effective_questions l custom (self m))
  /\ stdout (world (snd (generate_audio l custom m))) = stdout (world m).
Proof.
  pose proof (generate_audio_spec l custom m) as Hs. cbv zeta in Hs.
  destruct (generate_audio l custom m) as [r m'].
  by destruct Hs as (Hself & _ & _ & Hc & _ & Ho & _).
Qed.

Lemma generate_selected_calls langs sp tg m :
  self (snd (generate_selected langs sp tg m)) = self m
  /\ calls (world (snd (generate_selected langs sp tg m)))
     = calls (world m) ++ requests (self m) Spanish (texts_for Spanish langs sp tg (self m))
       ++ requests (self m) Tagalog (texts_for Tagalog langs sp tg (self m))
  /\ stdout (world (snd (generate_selected langs sp tg m))) = stdout (world m).
Proof.
  unfold generate_selected, texts_for.
  destruct (truthy sp || truthy tg) eqn:Hcustom.
  - set (sp' := if bool_decide (Spanish ∈ langs) then sp else None).
    set (tg' := if bool_decide (Tagalog ∈ langs) then tg else None).
    pose proof (generate_custom_audio_spec sp' tg' m) as Hs.
    destruct (generate_custom_audio sp' tg' m) as [res m'].
    destruct Hs as (rs & rt & _ & Hself & _ & _ & _ & _ & Hc & Ho & _).
    cbn [snd]. split; [done|]. split; [|done]. rewrite Hc. unfold requests. subst sp' tg'.
    by destruct (bool_decide (Spanish ∈ langs)), (bool_decide (Tagalog ∈ langs)).
  - unfold generate_spanish_audio, generate_tagalog_audio.
    destruct (bool_decide (Spanish ∈ langs)).
    + destruct (generate_audio_calls Spanish None m) as (Hs1 & Hc1 & Ho1).
      destruct (generate_audio Spanish None m) as [fsp m1]. cbn [snd] in *.
      destruct (bool_decide (Tagalog ∈ langs)).
      * destruct (generate_audio_calls Tagalog None m1) as (Hs2 & Hc2 & Ho2).
        destruct (generate_audio Tagalog None m1) as [ft m2]. cbn [snd] in *.
        rewrite Hs1 in *. split; [done|]. split; [|congruence].
        rewrite Hc2, Hc1, <- app_assoc. done.
      * cbn [snd]. split; [done|]. split; [|done]. rewrite Hc1. by rewrite app_nil_r.
    + destruct (bool_decide (Tagalog ∈ langs)).
      * destruct (generate_audio_calls Tagalog None m) as (Hs2 & Hc2 & Ho2).
        destruct (generate_audio Tagalog None m) as [ft m2]. cbn [snd] in *.
        split; [done|]. split; [|done]. by rewrite Hc2.
      * cbn. by rewrite app_nil_r.
Qed.

Lemma load_texts_stdout file_path w :
  stdout (snd (load_texts_from_file file_path w)) = stdout w.
Proof.
  unfold load_texts_from_file, load_texts_try. by destruct (open_read file_path w).
Qed.

Lemma choose_texts_stdout file texts w : stdout (snd (choose_texts file texts w)) = stdout w.
Proof.
  unfold choose_texts. destruct file as [[|c f]|]; try done.
  pose proof (load_texts_stdout (c :: f) w) as He.
  by destruct (load_texts_from_file (c :: f) w).
Qed.

Lemma init_stdout dir w : stdout (snd (__init__ dir w)) = stdout w.
Proof.
  unfold __init__. rewrite Path_mkdir_exist_ok_spec.
  destruct (fs w !! Path_str (Path_of_str dir)) as [[|d]|]; [|done|].
  - by destruct (TTS model_name _).
  - destruct (mkdir_refused _ w); [done|]. by destruct (TTS model_name _).
Qed.

(** The run of [main] after a successful [__init__], step by step. *)
Lemma main_success args w g w1 :
  __init__ (output args) w = (inr g, w1) ->
  exists sp w2 tg w3 results m',
    choose_texts (spanish_file args) (spanish_texts args) w1 = (sp, w2)
    /\ choose_texts (tagalog_file args) (tagalog_texts args) w2 = (tg, w3)
    /\ generate_selected (languages args) sp tg {| self := g; world := w3 |} = (results, m')
    /\ self m' = g
    /\ main args w
       = match print_all (report_lines results g) (world m') with
         | (Some e, w') =>
           (1, logger_error (py "Audio generation failed: " ++ exn_str e) w')
         | (None, w') => (0, w')
         end
    /\ calls (snd (main args w))
        = calls w ++ requests g Spanish (texts_for Spanish (languages args) sp tg g)
          ++ requests g Tagalog (texts_for Tagalog (languages args) sp tg g)
    /\ stdout (world m') = stdout w.
Proof.
  intros Einit.
  assert (forall sp w2 tg w3 results m',
             choose_texts (spanish_file args) (spanish_texts args) w1 = (sp, w2) ->
             choose_texts (tagalog_file args) (tagalog_texts args) w2 = (tg, w3) ->
             generate_selected (languages args) sp tg {| self := g; world := w3 |}
             = (results, m') ->
             self m' = g ->
             main args w
             = match print_all (report_lines results g) (world m') with
               | (Some e, w') =>
                 (1, logger_error (py "Audio generation failed: " ++ exn_str e) w')
               | (None, w') => (0, w')
               end) as Hmain.
  { intros sp w2 tg w3 results m' E1 E2 E3 Hself.
    unfold main. rewrite Einit, E1, E2, E3, Hself, print_results_all.
    by destruct (print_all (report_lines results g) (world m')) as [[e|] w']. }
  pose proof (init_effects (output args) w) as (Hc0 & _).
  pose proof (init_stdout (output args) w) as Ho0. rewrite Einit in Hc0, Ho0. cbn [snd] in *.
  destruct (choose_texts_effects (spanish_file args) (spanish_texts args) w1) as [_ Hc1].
  pose proof (choose_texts_stdout (spanish_file args) (spanish_texts args) w1) as Ho1.
  destruct (choose_texts (spanish_file args) (spanish_texts args) w1) as [sp w2] eqn:E1.
  destruct (choose_texts_effects (tagalog_file args) (tagalog_texts args) w2) as [_ Hc2].
  pose proof (choose_texts_stdout (tagalog_file args) (tagalog_texts args) w2) as Ho2.
  destruct (choose_texts (tagalog_file args) (tagalog_texts args) w2) as [tg w3] eqn:E2.
  cbn [snd] in *.
  pose proof (generate_selected_calls (languages args) sp tg {| self := g; world := w3 |})
    as (Hself & Hc3 & Ho3).
  destruct (generate_selected (languages args) sp tg {| self := g; world := w3 |})
    as [results m'] eqn:E3. cbn [snd self world] in *.
  exists sp, w2, tg, w3, results, m'.
  split; [done|]. split; [done|]. split; [done|]. split; [done|].
  split; [by apply (Hmain sp w2 tg w3)|]. split.
  - rewrite (Hmain sp w2 tg w3 results m') by done.
    destruct (print_all_spec (report_lines results g) (world m')) as (printed & _ & Hw & _).
    destruct (print_all (report_lines results g) (world m')) as [[e|] w']; cbn [snd] in *.
    all: subst w'; cbn; rewrite Hc3; congruence.
  - congruence.
Qed.

End Selection.

(** ** The run as a whole *)



(** X9.  After a successful [__init__], the synthesis requests of [main]
    are those for Spanish followed by those for Tagalog, where a language
    outside the filter gets none, and a language inside it gets its custom
    texts (from the file if one was named, else from the command line) as
    soon as either language has custom texts, and the default questions
    only when neither has. *)
Theorem main_requests `{Platform} args w g w1 :
  __init__ (output args) w = (inr g, w1) ->
  let sp := fst (choose_texts (spanish_file args) (spanish_texts args) w1) in
  let w2 := snd (choose_texts (spanish_file args) (spanish_texts args) w1) in
  let tg := fst (choose_texts (tagalog_file args) (tagalog_texts args) w2) in
  calls (snd (main args w))
  = calls w ++ requests g Spanish (texts_for Spanish (languages args) sp tg g)
    ++ requests g Tagalog (texts_for Tagalog (languages args) sp tg g).
Proof.
  intros Einit.
  destruct (main_success args w g w1 Einit)
    as (sp & w2 & tg & w3 & results & m' & E1 & E2 & _ & _ & _ & Hc & _).
  rewrite E1. cbn [fst snd]. rewrite E2. cbn [fst]. exact Hc.
Qed.

Lemma main_requests_witness :
  calls (snd (@main (FakePlatform true false []) tagalog_only_args empty_world))
  = [{| call_text := py "kumusta"; call_speaker := py "en";
        call_file_path := py "out/tagalog_q001.wav" |}].
Proof.
  destruct (@__init__ (FakePlatform true false []) (py "out") empty_world) as [[e|g] w1] eqn:E;
    [discriminate E|].
  rewrite (@main_requests (FakePlatform true false []) tagalog_only_args empty_world g w1 E).
  injection E as <- <-. vm_compute. reflexivity.
Defined.

Lemma requests_nil `{Platform} g l : requests g l [] = [].
Proof. done. Qed.

(** X10.  Custom texts for one language switch the defaults off for the
    other: when [l] has inline texts and the other language has neither a
    file nor texts, [main] requests the texts of [l] if [l] passes the
    filter and nothing else; the other language gets no request, not even
    for its default questions, whether it passes the filter or not. *)
Theorem custom_texts_suppress_defaults `{Platform} l args w g w1 t ts :
  __init__ (output args) w = (inr g, w1) ->
  file_of l args = None -> texts_of l args = Some (t :: ts) ->
  file_of (other l) args = None -> texts_of (other l) args = None ->
  calls (snd (main args w))
  = calls w ++ (if bool_decide (l ∈ languages args) then requests g l (t :: ts) else []).
Proof.
  intros Einit Hf Ht Hof Hot.
  destruct (main_success args w g w1 Einit)
    as (sp & w2 & tg & w3 & results & m' & E1 & E2 & _ & _ & _ & Hc & _).
  rewrite Hc.
  unfold texts_for.
  destruct l; cbn [file_of texts_of other] in *.
  - rewrite Hf, Ht in E1. cbn in E1. injection E1 as <- <-.
    rewrite Hof, Hot in E2. cbn in E2. injection E2 as <- <-.
    cbn [truthy orb default].
    destruct (bool_decide (Spanish ∈ languages args)),
             (bool_decide (Tagalog ∈ languages args)); by rewrite ?requests_nil, ?app_nil_r.
  - rewrite Hof, Hot in E1. cbn in E1. injection E1 as <- <-.
    rewrite Hf, Ht in E2. cbn in E2. injection E2 as <- <-.
    cbn [truthy orb default].
    destruct (bool_decide (Spanish ∈ languages args)),
             (bool_decide (Tagalog ∈ languages args)); by rewrite ?requests_nil, ?app_nil_r.
Qed.

Lemma custom_texts_suppress_defaults_witness :
  calls (snd (@main (FakePlatform true false []) inline_spanish_args empty_world))
  = [{| call_text := py "hola"; call_speaker := py "es";
        call_file_path := py "out/spanish_q001.wav" |}].
Proof.
  destruct (@__init__ (FakePlatform true false []) (py "out") empty_world) as [[e|g] w1] eqn:E;
    [discriminate E|].
  rewrite (@custom_texts_suppress_defaults (FakePlatform true false []) Spanish
             inline_spanish_args empty_world g w1 (py "hola") [] E
             eq_refl eq_refl eq_refl eq_refl).
  injection E as <- <-. vm_compute. reflexivity.
Defined.

(** X11.  A file that cannot be read, or has only blank lines, is not an
    error for the run: when it is the only source of custom texts, [main]
    goes on with the default questions of every language that passes the
    filter, and inline texts given for the same language are ignored. *)
Theorem unreadable_file_falls_back `{Platform} l args w g w1 c f :
  __init__ (output args) w = (inr g, w1) ->
  file_of l args = Some (c :: f) ->
  fst (load_texts_from_file (c :: f) w1) = [] ->
  file_of (other l) args = None -> texts_of (other l) args = None ->
  calls (snd (main args w))
  = calls w
    ++ (if bool_decide (Spanish ∈ languages args)
        then requests g Spanish (spanish_questions g) else [])
    ++ (if bool_decide (Tagalog ∈ languages args)
        then requests g Tagalog (tagalog_questions g) else []).
Proof.
  intros Einit Hf Hload Hof Hot.
  destruct (main_success args w g w1 Einit)
    as (sp & w2 & tg & w3 & results & m' & E1 & E2 & _ & _ & _ & Hc & _).
  rewrite Hc. unfold texts_for.
  destruct (load_texts_from_file (c :: f) w1) as [loaded wl] eqn:El. cbn [fst] in Hload.
  subst loaded.
  destruct l; cbn [file_of texts_of other] in *.
  - rewrite Hf in E1. cbn [choose_texts] in E1. rewrite El in E1. injection E1 as <- <-.
    rewrite Hof, Hot in E2. cbn in E2. injection E2 as <- <-.
    cbn [truthy orb questions_of].
    by destruct (bool_decide (Spanish ∈ languages args)),
                (bool_decide (Tagalog ∈ languages args)).
  - rewrite Hof, Hot in E1. cbn in E1. injection E1 as <- <-.
    rewrite Hf in E2. cbn [choose_texts] in E2. rewrite El in E2. injection E2 as <- <-.
    cbn [truthy orb questions_of].
    by destruct (bool_decide (Spanish ∈ languages args)),
                (bool_decide (Tagalog ∈ languages args)).
Qed.

Lemma unreadable_file_falls_back_witness :
  length (calls (snd (@main (FakePlatform true false []) missing_file_args empty_world)))
  = 10%nat.
Proof.
  destruct (@__init__ (FakePlatform true false []) (py "out") empty_world) as [[e|g] w1] eqn:E;
    [discriminate E|].
  rewrite (@unreadable_file_falls_back (FakePlatform true false []) Spanish
             missing_file_args empty_world g w1 109 (py "issing.txt") E eq_refl).
  - injection E as <- <-. vm_compute. reflexivity.
  - injection E as <- <-. vm_compute. reflexivity.
  - reflexivity.
  - reflexivity.
Defined.

(** X12.  From file to speech: when the file named for [l] can be read and
    has a line that is not blank, [l] passes the filter and the other
    language has no custom texts, the requests of [main] are exactly one
    per non-blank line of the file, in order, each with the stripped line
    as its text; inline texts for [l] play no part. *)
Theorem file_lines_are_requested `{Platform} l args w g w1 c f content :
  __init__ (output args) w = (inr g, w1) ->
  file_of l args = Some (c :: f) ->
  open_read (c :: f) w1 = inr content ->
  file_of (other l) args = None -> texts_of (other l) args = None ->
  l ∈ languages args ->
  strip <$> filter (fun line => ~ blank line) (split 10 content) <> [] ->
  calls (snd (main args w))
  = calls w ++ requests g l (strip <$> filter (fun line => ~ blank line) (split 10 content)).
Proof.
  intros Einit Hf Hread Hof Hot Hl Hne.
  destruct (main_success args w g w1 Einit)
    as (sp & w2 & tg & w3 & results & m' & E1 & E2 & _ & _ & _ & Hc & _).
  rewrite Hc. unfold texts_for.
  pose proof (load_texts_of_content _ _ _ Hread) as Hload.
  destruct (load_texts_from_file (c :: f) w1) as [loaded wl] eqn:El. cbn [fst] in Hload.
  set (texts := strip <$> filter (fun line => ~ blank line) (split 10 content)) in *.
  assert (truthy (Some texts) = true) as Htr by (destruct texts; done).
  assert (bool_decide (l ∈ languages args) = true) as Hl' by (by apply bool_decide_eq_true_2).
  destruct l; cbn [file_of texts_of other] in *.
  - rewrite Hf in E1. cbn [choose_texts] in E1. rewrite El in E1. injection E1 as <- <-.
    rewrite Hof, Hot in E2. cbn in E2. injection E2 as <- <-.
    rewrite Hload, Hl', Htr. cbn [orb default].
    destruct (bool_decide (Tagalog ∈ languages args)); by rewrite requests_nil, app_nil_r.
  - rewrite Hof, Hot in E1. cbn in E1. injection E1 as <- <-.
    rewrite Hf in E2. cbn [choose_texts] in E2. rewrite El in E2. injection E2 as <- <-.
    rewrite Hload, Hl', Htr. cbn [truthy orb default].
    destruct (bool_decide (Spanish ∈ languages args)); by rewrite requests_nil.
Qed.

Lemma file_lines_are_requested_witness :
  call_text <$> calls (snd (@main (FakePlatform true false []) spanish_file_args
                              (world_with_file (py "preguntas.txt")
                                 [x68; x6f; x6c; x61; x0a; x0a; x20; x73; x69; x20; x0a])))
  = [py "hola"; py "si"].
Proof.
  destruct (@__init__ (FakePlatform true false []) (py "out")
              (world_with_file (py "preguntas.txt")
                 [x68; x6f; x6c; x61; x0a; x0a; x20; x73; x69; x20; x0a]))
    as [[e|g] w1] eqn:E; [discriminate E|].
  rewrite (@file_lines_are_requested (FakePlatform true false []) Spanish
             spanish_file_args _ g w1 112 (py "reguntas.txt")
             [104; 111; 108; 97; 10; 10; 32; 115; 105; 32; 10] E eq_refl).
  - injection E as <- <-. vm_compute. reflexivity.
  - injection E as <- <-. vm_compute. reflexivity.
  - reflexivity.
  - reflexivity.
  - apply list_elem_of_here.
  - vm_compute. discriminate.
Defined.

Lemma generate_selected_ext `{Platform} la lb sp tg m :
  (forall l, l ∈ la <-> l ∈ lb) ->
  generate_selected la sp tg m = generate_selected lb sp tg m.
Proof.
  intros Hext. unfold generate_selected.
  by rewrite (bool_decide_ext _ _ (Hext Spanish)), (bool_decide_ext _ _ (Hext Tagalog)).
Qed.

(** X13.  The filter counts as a set: two lists of languages with the same
    members give the same run of [main] in every respect, so the order
    of the languages on the command line and their repetition change
    nothing, and Spanish is always processed before Tagalog. *)
Theorem language_order_is_irrelevant `{Platform} la lb args w :
  (forall l, l ∈ la <-> l ∈ lb) ->
  main (with_languages la args) w = main (with_languages lb args) w.
Proof.
  intros Hext. unfold main. cbn [with_languages output spanish_file tagalog_file
                                 spanish_texts tagalog_texts languages].
  destruct (__init__ (output args) w) as [[e|g] w1]; [done|].
  destruct (choose_texts (spanish_file args) (spanish_texts args) w1) as [sp w2].
  destruct (choose_texts (tagalog_file args) (tagalog_texts args) w2) as [tg w3].
  by rewrite (generate_selected_ext la lb sp tg _ Hext).
Qed.

Lemma language_order_is_irrelevant_witness :
  @main (FakePlatform true false []) (with_languages [Tagalog; Spanish; Tagalog] default_args)
    empty_world
  = @main (FakePlatform true false []) default_args empty_world.
Proof.
  apply (@language_order_is_irrelevant (FakePlatform true false [])
           [Tagalog; Spanish; Tagalog] [Spanish; Tagalog] default_args empty_world).
  intros l. split; intros _; destruct l.
  - apply list_elem_of_here.
  - apply list_elem_of_further, list_elem_of_here.
  - apply list_elem_of_further, list_elem_of_here.
  - apply list_elem_of_here.
Defined.

(** X14.  The footprint of [__init__] with [p] the output directory: it
    makes no synthesis request and prints nothing; it leaves every other
    path alone, and [p] too when something is there already, be it a
    directory or a file.  If it returns, [p] is a directory, the object
    holds the parsed directory and the built-in questions, and three INFO
    records were logged.  If it raises, either nothing was logged and
    nothing changed ([p] could not be made), or the model failed to load:
    then an INFO and an ERROR record were logged and [p] stays behind as a
    directory. *)
Theorem init_footprint `{Platform} dir w :
  let p := Path_str (Path_of_str dir) in
  let '(res, w1) := __init__ dir w in
  calls w1 = calls w /\ stdout w1 = stdout w
  /\ (forall q, q <> p -> fs w1 !! q = fs w !! q)
  /\ (is_Some (fs w !! p) -> fs w1 = fs w)
  /\ match res with
     | inr g =>
       fs w1 !! p = Some Dir
       /\ output_dir g = Path_of_str dir
       /\ spanish_questions g = default_spanish_questions
       /\ tagalog_questions g = default_tagalog_questions
       /\ log w1 = log w ++ [
            {| level := INFO; message := py "Loading TTS model..." |};
            {| level := INFO; message := py "TTS model loaded successfully" |};
            {| level := INFO;
               message := py "HealthEquity Audio Generator initialized. Output directory: "
                          ++ p |}]
     | inl e =>
       (w1 = w /\ fs w !! p <> Some Dir)
       \/ (fs w1 !! p = Some Dir
           /\ log w1 = log w ++ [
                {| level := INFO; message := py "Loading TTS model..." |};
                {| level := ERROR;
                   message := py "Failed to load TTS model: " ++ exn_str e |}])
     end.
Proof.
  intros p. unfold __init__. rewrite Path_mkdir_exist_ok_spec. fold p.
  destruct (fs w !! p) as [[|d]|] eqn:E.
  - destruct (TTS model_name _) as [e|h]; cbn; do 4 (split; [done|]).
    + right. split; [done|]. by rewrite <- app_assoc.
    + do 4 (split; [done|]). by rewrite <- !app_assoc.
  - do 4 (split; [done|]). left. done.
  - destruct (mkdir_refused p w) as [e|].
    + do 4 (split; [done|]). left. done.
    + destruct (TTS model_name _) as [e|h]; cbn.
      all: split; [done|]; split; [done|].
      all: split; [by intros q Hq; rewrite lookup_insert_ne|].
      all: split; [by intros [? ?]|].
      * right. split; [apply lookup_insert_eq|]. by rewrite <- app_assoc.
      * split; [apply lookup_insert_eq|]. do 3 (split; [done|]). by rewrite <- !app_assoc.
Qed.

(** ** Spelling of the output directory *)

Lemma Path_of_str_trailing_slash s :
  Exists (fun c => c <> 47) s -> Path_of_str (s ++ [47]) = Path_of_str s.
Proof.
  intros Hex. unfold Path_of_str. f_equal.
  - destruct s as [|a [|b [|c r]]]; cbn.
    + by apply Exists_nil in Hex.
    + apply Exists_cons in Hex as [Ha|Hex]; [|by apply Exists_nil in Hex].
      by destruct (N.eqb_spec a 47).
    + destruct (N.eqb_spec a 47) as [->|]; [|done]. cbn.
      destruct (N.eqb_spec b 47) as [->|]; [|done].
      apply Exists_cons in Hex as [?|Hex]; [done|].
      apply Exists_cons in Hex as [?|Hex]; [done|]. by apply Exists_nil in Hex.
    + done.
  - rewrite split_app_sep, filter_app. cbn [split].
    rewrite filter_cons_False by (intros [? _]; done). apply app_nil_r.
Qed.

Lemma Path_of_str_dot_slash s :
  starts_with_sep s = false -> Path_of_str ([46; 47] ++ s) = Path_of_str s.
Proof.
  intros Hrel. unfold Path_of_str.
  assert (split 47 ([46; 47] ++ s) = [46] :: split 47 s) as -> by done.
  rewrite filter_cons_False by (intros [_ ?]; done).
  cbn [app starts_with_sep]. change (46 =? 47) with false. cbn [negb].
  by rewrite Hrel.
Qed.

Lemma main_output_ext `{Platform} d1 d2 args w :
  Path_of_str d1 = Path_of_str d2 ->
  main (with_output d1 args) w = main (with_output d2 args) w.
Proof.
  intros E. unfold main, __init__.
  cbn [with_output output spanish_file tagalog_file spanish_texts tagalog_texts languages].
  by rewrite E.
Qed.

(** X15.  [main] depends on the output directory only through the path it
    parses to: a slash added at the end of a directory name, and [./] put
    before a relative one, give the same run, with the same directory made
    and the same files written. *)
Theorem output_spelling `{Platform} dir args w :
  (Exists (fun c => c <> 47) dir ->
   main (with_output (dir ++ [47]) args) w = main (with_output dir args) w)
  /\ (starts_with_sep dir = false ->
      main (with_output ([46; 47] ++ dir) args) w = main (with_output dir args) w).
Proof.
  split; intros Hdir; apply main_output_ext.
  - by apply Path_of_str_trailing_slash.
  - by apply Path_of_str_dot_slash.
Qed.

Lemma output_spelling_witness :
  @main (FakePlatform true false []) (with_output (py "out/") default_args) empty_world
  = @main (FakePlatform true false []) (with_output (py "out") default_args) empty_world
  /\ @main (FakePlatform true false []) (with_output (py "./out") default_args) empty_world
     = @main (FakePlatform true false []) (with_output (py "out") default_args) empty_world.
Proof.
  destruct (@output_spelling (FakePlatform true false []) (py "out") default_args
              empty_world) as [Hslash Hdot].
  split.
  - apply Hslash. apply Exists_cons_hd. discriminate.
  - apply Hdot. reflexivity.
Defined.

(** ** Line endings *)

Lemma translate_newlines_crlf t rest :
  Forall (fun c => c <> 13) t ->
  translate_newlines (t ++ 13 :: 10 :: rest) = t ++ 10 :: translate_newlines rest.
Proof.
  induction 1 as [|c r Hc _ IH]; [done|]. cbn [app translate_newlines].
  destruct (N.eqb_spec c 13); [done|]. by rewrite IH.
Qed.

Lemma translate_newlines_join texts :
  Forall (Forall (fun c => c <> 13)) texts ->
  translate_newlines (join [13; 10] texts) = join [10] texts.
Proof.
  induction 1 as [|t rest Ht Hrest IH]; [done|].
  destruct rest as [|y rest]; [by apply translate_newlines_id|].
  rewrite !join_cons. cbn [app]. by rewrite translate_newlines_crlf, IH.
Qed.

(** X16.  Line endings do not matter: a file whose clean texts are
    separated by carriage return and line feed loads to exactly those
    texts, as the same file with line feeds alone does. *)
Theorem load_texts_crlf `{Platform} file_path w data texts :
  open_refused file_path w = None ->
  fs w !! file_path = Some (File data) ->
  utf8_decode data = Some (join [13; 10] texts) ->
  Forall clean_text texts ->
  fst (load_texts_from_file file_path w) = texts.
Proof.
  intros Hopen Hfile Hdec Hclean.
  assert (Forall (Forall (fun c => c <> 13)) texts) as Hcr.
  { eapply Forall_impl; [exact Hclean|]. intros t (_ & _ & _ & Hone).
    eapply Forall_impl; [exact Hone|]. by intros c [_ ?]. }
  assert (Forall (Forall (fun c => c <> 10)) texts) as Hnl.
  { eapply Forall_impl; [exact Hclean|]. intros t (_ & _ & _ & Hone).
    eapply Forall_impl; [exact Hone|]. by intros c [? _]. }
  assert (open_read file_path w = inr (join [10] texts)) as Hread.
  { unfold open_read. rewrite Hopen, Hfile, Hdec. f_equal.
    by apply translate_newlines_join. }
  rewrite (load_texts_of_content _ _ _ Hread).
  destruct texts as [|t rest]; [done|].
  rewrite split_join by done.
  rewrite <- (app_nil_r (t :: rest)) at 1. apply load_lines_clean; [done|constructor].
Qed.

Lemma load_texts_crlf_witness :
  fst (@load_texts_from_file (FakePlatform true false []) (py "preguntas.txt")
         (world_with_file (py "preguntas.txt") [x73; x69; x0d; x0a; x6e; x6f]))
  = [py "si"; py "no"].
Proof.
  apply (@load_texts_crlf (FakePlatform true false []) (py "preguntas.txt")
           (world_with_file (py "preguntas.txt") [x73; x69; x0d; x0a; x6e; x6f])
           [x73; x69; x0d; x0a; x6e; x6f] [py "si"; py "no"]).
  - reflexivity.
  - vm_compute. reflexivity.
  - vm_compute. reflexivity.
  - constructor; [|constructor; [|constructor]].
    all: split; [discriminate|].
    all: split; [intros c Hc; vm_compute in Hc; injection Hc as <-; reflexivity|].
    all: split; [intros c Hc; vm_compute in Hc; injection Hc as <-; reflexivity|].
    all: vm_compute (py _).
    all: repeat (constructor; [split; discriminate|]); constructor.
Defined.
